(** * ClientConnect: the top-level connection logic of the OpenVPN client

    A shallow embedding of [openvpn/client/cliconnect.hpp].  The class
    [ClientConnect] is a single-threaded state machine: its members become
    the fields of [State], its methods become functions on [State], and the
    objects it talks to (event queue, statistics, remote list, protocol
    session, pre-resolver) are observed through an ordered [trace] of the
    calls made on them. *)

From Stdlib Require Import ZArith List String Bool Lia.
Import ListNotations.
Open Scope Z_scope.

(** ** Error codes ([Error::Type]) *)

Module Error.

(** The enumerators that [cliconnect.hpp] names, and [OTHER n] for the
    remaining members of the enumeration. *)
Inductive Type_ : Set :=
| UNDEF
| AUTH_FAILED
| TUN_SETUP_FAILED
| TUN_IFACE_CREATE
| TUN_IFACE_DISABLED
| PROXY_ERROR
| PROXY_NEED_CREDS
| CERT_VERIFY_FAIL
| TLS_VERSION_MIN
| CLIENT_HALT
| CLIENT_RESTART
| INACTIVE_TIMEOUT
| N_PAUSE
| N_RECONNECT
| CONNECTION_TIMEOUT
| OTHER (n : nat).

Definition eqb (a b : Type_) : bool :=
  match a, b with
  | UNDEF, UNDEF | AUTH_FAILED, AUTH_FAILED
  | TUN_SETUP_FAILED, TUN_SETUP_FAILED | TUN_IFACE_CREATE, TUN_IFACE_CREATE
  | TUN_IFACE_DISABLED, TUN_IFACE_DISABLED | PROXY_ERROR, PROXY_ERROR
  | PROXY_NEED_CREDS, PROXY_NEED_CREDS | CERT_VERIFY_FAIL, CERT_VERIFY_FAIL
  | TLS_VERSION_MIN, TLS_VERSION_MIN | CLIENT_HALT, CLIENT_HALT
  | CLIENT_RESTART, CLIENT_RESTART | INACTIVE_TIMEOUT, INACTIVE_TIMEOUT
  | N_PAUSE, N_PAUSE | N_RECONNECT, N_RECONNECT
  | CONNECTION_TIMEOUT, CONNECTION_TIMEOUT => true
  | OTHER n, OTHER m => Nat.eqb n m
  | _, _ => false
  end.

End Error.

(** ** Client events ([ClientEvent::*]) *)

Module ClientEvent.

Inductive Base : Set :=
| Resolve
| Reconnecting
| Pause
| Resume
| Disconnected
| ConnectionTimeout
| DynamicChallenge (reason : string)
| AuthFailed (reason : string)
| TunSetupFailed (reason : string)
| TunIfaceCreate (reason : string)
| TunIfaceDisabled (reason : string)
| ProxyError (reason : string)
| ProxyNeedCreds (reason : string)
| CertVerifyFail (reason : string)
| TLSVersionMinFail
| ClientHalt (reason : string)
| ClientRestart (reason : string)
| InactiveTimeout.

End ClientEvent.

(** ** Collaborators *)

(** What [ClientConnect] reads from [ClientOptions]. *)
Record ClientOptions : Set := {
  opt_conn_timeout : Z;                    (* conn_timeout() *)
  pause_on_connection_timeout : bool;
  server_poll_timeout_enabled : bool;
  server_poll_timeout : Z;                 (* a duration, in seconds *)
  work_available : bool                    (* RemoteList::PreResolve::work_available() *)
}.

(** What [ClientConnect] reads from its protocol session ([Client]). *)
Record Session : Set := {
  first_packet_received : bool;
  reached_connected_state : bool;
  fatal : Error.Type_;
  fatal_reason : string
}.

(** The session that [new Client(...)] constructs. *)
Definition fresh_session : Session :=
  {| first_packet_received := false;
     reached_connected_state := false;
     fatal := Error.UNDEF;
     fatal_reason := EmptyString |}.

(** A [RemoteList::PreResolve] object held in [pre_resolve]. *)
Record PreResolve : Set := { pr_cancelled : bool }.

(** [boost::system::error_code] as the timer handlers test it. *)
Inductive error_code : Set := success | operation_aborted.

Definition is_error (e : error_code) : bool :=
  match e with success => false | operation_aborted => true end.

(** ** Timers ([AsioTimer])

    A deadline timer with its outstanding asynchronous waits.  Each wait
    remembers the argument bound by [asio_dispatch_timer_arg] (the
    generation) and the expiry it waits for.  [cancel] and [expires_at]
    abort the outstanding waits; an aborted wait is still delivered to its
    handler (see [step]). *)

Record Wait : Set := { w_gen : Z; w_expiry : Z; w_aborted : bool }.

Record AsioTimer : Set := { expiry : Z; waits : list Wait }.

Definition abort (w : Wait) : Wait :=
  {| w_gen := w_gen w; w_expiry := w_expiry w; w_aborted := true |}.

Definition timer_cancel (t : AsioTimer) : AsioTimer :=
  {| expiry := expiry t; waits := map abort (waits t) |}.

Definition timer_expires_at (at_ : Z) (t : AsioTimer) : AsioTimer :=
  {| expiry := at_; waits := map abort (waits t) |}.

Definition timer_async_wait (gen : Z) (t : AsioTimer) : AsioTimer :=
  {| expiry := expiry t;
     waits := waits t ++ [{| w_gen := gen; w_expiry := expiry t; w_aborted := false |}] |}.

Definition new_timer : AsioTimer := {| expiry := 0; waits := [] |}.

Inductive TimerId : Set := ServerPoll | RestartWait | ConnTimer.

(** ** Calls on the collaborators, in program order *)

Inductive Effect : Set :=
| EvAdd (ev : ClientEvent.Base)     (* client_options->events().add_event(ev) *)
| StatError (e : Error.Type_)       (* client_options->stats().error(e) *)
| OptNext                           (* client_options->next() *)
| ClosePersistent                   (* client_options->close_persistent() *)
| ClientNew                         (* client.reset(new Client(...)) *)
| ClientStart                       (* client->start() *)
| ClientStop (graceful : bool)      (* client->stop(graceful) *)
| ClientExitNotify                  (* client->send_explicit_exit_notify() *)
| PreResStart                       (* pre_resolve->start(this) *)
| PreResCancel.                     (* pre_resolve->cancel() *)

(** Operations posted to the [io_service] by the thread-safe methods. *)
Inductive Posted : Set :=
| P_graceful_stop
| P_pause
| P_resume
| P_reconnect (seconds : Z).

(** ** The state of a [ClientConnect] object *)

Record State : Set := mkState {
  generation : Z;                (* unsigned int *)
  halt : bool;
  paused : bool;
  dont_restart_ : bool;
  conn_timeout : Z;              (* int *)
  client_options : ClientOptions;
  client : option Session;       (* Client::Ptr, None when null *)
  server_poll_timer : AsioTimer;
  restart_wait_timer : AsioTimer;
  conn_timer : AsioTimer;
  conn_timer_pending : bool;
  asio_work : bool;              (* ScopedPtr<io_service::work>, true when held *)
  pre_resolve : option PreResolve;
  (* the surroundings *)
  now : Z;                       (* Time::now(), in seconds *)
  posted : list Posted;          (* the io_service's queue of posted handlers *)
  trace : list Effect
}.

Definition UINT_MODULUS : Z := 2 ^ 32.

(** [++x] on an [unsigned int]. *)
Definition uint_incr (x : Z) : Z := (x + 1) mod UINT_MODULUS.

Definition set_generation (g : Z) (s : State) : State :=
  mkState g (halt s) (paused s) (dont_restart_ s) (conn_timeout s)
          (client_options s) (client s) (server_poll_timer s)
          (restart_wait_timer s) (conn_timer s) (conn_timer_pending s)
          (asio_work s) (pre_resolve s) (now s) (posted s) (trace s).

Definition set_halt (b : bool) (s : State) : State :=
  mkState (generation s) b (paused s) (dont_restart_ s) (conn_timeout s)
          (client_options s) (client s) (server_poll_timer s)
          (restart_wait_timer s) (conn_timer s) (conn_timer_pending s)
          (asio_work s) (pre_resolve s) (now s) (posted s) (trace s).

Definition set_paused (b : bool) (s : State) : State :=
  mkState (generation s) (halt s) b (dont_restart_ s) (conn_timeout s)
          (client_options s) (client s) (server_poll_timer s)
          (restart_wait_timer s) (conn_timer s) (conn_timer_pending s)
          (asio_work s) (pre_resolve s) (now s) (posted s) (trace s).

Definition set_dont_restart (b : bool) (s : State) : State :=
  mkState (generation s) (halt s) (paused s) b (conn_timeout s)
          (client_options s) (client s) (server_poll_timer s)
          (restart_wait_timer s) (conn_timer s) (conn_timer_pending s)
          (asio_work s) (pre_resolve s) (now s) (posted s) (trace s).

Definition set_client (c : option Session) (s : State) : State :=
  mkState (generation s) (halt s) (paused s) (dont_restart_ s) (conn_timeout s)
          (client_options s) c (server_poll_timer s)
          (restart_wait_timer s) (conn_timer s) (conn_timer_pending s)
          (asio_work s) (pre_resolve s) (now s) (posted s) (trace s).

Definition get_timer (id : TimerId) (s : State) : AsioTimer :=
  match id with
  | ServerPoll => server_poll_timer s
  | RestartWait => restart_wait_timer s
  | ConnTimer => conn_timer s
  end.

Definition set_timer (id : TimerId) (t : AsioTimer) (s : State) : State :=
  mkState (generation s) (halt s) (paused s) (dont_restart_ s) (conn_timeout s)
          (client_options s) (client s)
          (match id with ServerPoll => t | _ => server_poll_timer s end)
          (match id with RestartWait => t | _ => restart_wait_timer s end)
          (match id with ConnTimer => t | _ => conn_timer s end)
          (conn_timer_pending s)
          (asio_work s) (pre_resolve s) (now s) (posted s) (trace s).

Definition set_conn_timer_pending (b : bool) (s : State) : State :=
  mkState (generation s) (halt s) (paused s) (dont_restart_ s) (conn_timeout s)
          (client_options s) (client s) (server_poll_timer s)
          (restart_wait_timer s) (conn_timer s) b
          (asio_work s) (pre_resolve s) (now s) (posted s) (trace s).

Definition set_asio_work (b : bool) (s : State) : State :=
  mkState (generation s) (halt s) (paused s) (dont_restart_ s) (conn_timeout s)
          (client_options s) (client s) (server_poll_timer s)
          (restart_wait_timer s) (conn_timer s) (conn_timer_pending s)
          b (pre_resolve s) (now s) (posted s) (trace s).

Definition set_pre_resolve (p : option PreResolve) (s : State) : State :=
  mkState (generation s) (halt s) (paused s) (dont_restart_ s) (conn_timeout s)
          (client_options s) (client s) (server_poll_timer s)
          (restart_wait_timer s) (conn_timer s) (conn_timer_pending s)
          (asio_work s) p (now s) (posted s) (trace s).

Definition set_now (t : Z) (s : State) : State :=
  mkState (generation s) (halt s) (paused s) (dont_restart_ s) (conn_timeout s)
          (client_options s) (client s) (server_poll_timer s)
          (restart_wait_timer s) (conn_timer s) (conn_timer_pending s)
          (asio_work s) (pre_resolve s) t (posted s) (trace s).

Definition set_posted (q : list Posted) (s : State) : State :=
  mkState (generation s) (halt s) (paused s) (dont_restart_ s) (conn_timeout s)
          (client_options s) (client s) (server_poll_timer s)
          (restart_wait_timer s) (conn_timer s) (conn_timer_pending s)
          (asio_work s) (pre_resolve s) (now s) q (trace s).

Definition emit (e : Effect) (s : State) : State :=
  mkState (generation s) (halt s) (paused s) (dont_restart_ s) (conn_timeout s)
          (client_options s) (client s) (server_poll_timer s)
          (restart_wait_timer s) (conn_timer s) (conn_timer_pending s)
          (asio_work s) (pre_resolve s) (now s) (posted s) (trace s ++ [e]).

Definition add_event (ev : ClientEvent.Base) : State -> State := emit (EvAdd ev).
Definition stats_error (e : Error.Type_) : State -> State := emit (StatError e).

Definition cancel (id : TimerId) (s : State) : State :=
  set_timer id (timer_cancel (get_timer id s)) s.

Definition expires_at (id : TimerId) (at_ : Z) (s : State) : State :=
  set_timer id (timer_expires_at at_ (get_timer id s)) s.

Definition async_wait (id : TimerId) (gen : Z) (s : State) : State :=
  set_timer id (timer_async_wait gen (get_timer id s)) s.

Definition has_client (s : State) : bool :=
  match client s with Some _ => true | None => false end.

Definition has_pre_resolve (s : State) : bool :=
  match pre_resolve s with Some _ => true | None => false end.

(** The constructor. *)
Definition init (o : ClientOptions) (t0 : Z) : State :=
  {| generation := 0;
     halt := false;
     paused := false;
     dont_restart_ := false;
     conn_timeout := opt_conn_timeout o;
     client_options := o;
     client := None;
     server_poll_timer := new_timer;
     restart_wait_timer := new_timer;
     conn_timer := new_timer;
     conn_timer_pending := false;
     asio_work := false;
     pre_resolve := None;
     now := t0;
     posted := [];
     trace := [] |}.

(** ** The methods of [ClientConnect] *)

Definition cancel_timers (s : State) : State :=
  set_conn_timer_pending false
    (cancel ConnTimer (cancel ServerPoll (cancel RestartWait s))).

Definition conn_timer_start (s : State) : State :=
  if negb (conn_timer_pending s) && (0 <? conn_timeout s) then
    set_conn_timer_pending true
      (async_wait ConnTimer (generation s)
         (expires_at ConnTimer (now s + conn_timeout s) s))
  else s.

Definition new_client (s : State) : State :=
  let s := set_generation (uint_incr (generation s)) s in
  let s := set_asio_work false s in
  let s := if has_client s then emit (ClientStop false) s else s in
  let s :=
    if 1 <? generation s then
      let s := add_event ClientEvent.Reconnecting s in
      let s := stats_error Error.N_RECONNECT s in
      if negb (match client s with
               | Some c => reached_connected_state c
               | None => false
               end)
      then emit OptNext s
      else s
    else s in
  let s := emit ClientNew (set_client (Some fresh_session) s) in
  let s := cancel RestartWait s in
  let s :=
    if server_poll_timeout_enabled (client_options s) then
      async_wait ServerPoll (generation s)
        (expires_at ServerPoll (now s + server_poll_timeout (client_options s)) s)
    else s in
  let s := conn_timer_start s in
  emit ClientStart s.

Definition start (s : State) : State :=
  if negb (has_client s) && negb (halt s) then
    if work_available (client_options s) then
      let s := add_event ClientEvent.Resolve s in
      let s := set_pre_resolve (Some {| pr_cancelled := false |}) s in
      emit PreResStart s
    else new_client s
  else s.

Definition stop (s : State) : State :=
  if negb (halt s) then
    let s := set_halt true s in
    let s := if has_pre_resolve s
             then emit PreResCancel (set_pre_resolve (Some {| pr_cancelled := true |}) s)
             else s in
    let s := if has_client s then emit (ClientStop false) s else s in
    let s := cancel_timers s in
    let s := set_asio_work false s in
    let s := emit ClosePersistent s in
    add_event ClientEvent.Disconnected s
  else s.

Definition graceful_stop (s : State) : State :=
  let s := if negb (halt s) && has_client s then emit ClientExitNotify s else s in
  stop s.

Definition stop_on_signal (s : State) : State := stop s.

Definition post (p : Posted) (s : State) : State :=
  set_posted (posted s ++ [p]) s.

Definition thread_safe_stop (s : State) : State :=
  if negb (halt s) then post P_graceful_stop s else s.

Definition pause (s : State) : State :=
  if negb (halt s) && negb (paused s) then
    let s := set_paused true s in
    let s := if has_client s
             then emit (ClientStop false) (emit ClientExitNotify s)
             else s in
    let s := cancel_timers s in
    let s := set_asio_work true s in
    let s := add_event ClientEvent.Pause s in
    stats_error Error.N_PAUSE s
  else s.

Definition resume (s : State) : State :=
  if negb (halt s) && paused s then
    let s := set_paused false s in
    let s := add_event ClientEvent.Resume s in
    new_client s
  else s.

Definition reconnect (seconds : Z) (s : State) : State :=
  if negb (halt s) then
    let seconds := if seconds <? 0 then 0 else seconds in
    let s := cancel ServerPoll s in
    let s := expires_at RestartWait (now s + seconds) s in
    async_wait RestartWait (generation s) s
  else s.

Definition thread_safe_pause (s : State) : State :=
  if negb (halt s) then post P_pause s else s.

Definition thread_safe_resume (s : State) : State :=
  if negb (halt s) then post P_resume s else s.

Definition thread_safe_reconnect (seconds : Z) (s : State) : State :=
  if negb (halt s) then post (P_reconnect seconds) s else s.

Definition dont_restart (s : State) : State := set_dont_restart true s.

Definition pre_resolve_done (s : State) : State :=
  if negb (halt s) then new_client s else s.

Definition restart_wait_callback (gen : Z) (e : error_code) (s : State) : State :=
  if negb (is_error e) && (gen =? generation s) && negb (halt s) then
    if paused s then resume s
    else
      let s := if has_client s then emit ClientExitNotify s else s in
      new_client s
  else s.

(** How a callback that can fail ends. *)
Inductive Outcome : Set :=
| Done (s : State)
| Unhandled          (* client_connect_unhandled_exception is thrown *)
| NullDeref.         (* a member is called through the null client pointer *)

Definition server_poll_callback (gen : Z) (e : error_code) (s : State) : Outcome :=
  if negb (is_error e) && (gen =? generation s) && negb (halt s) then
    match client s with
    | None => NullDeref
    | Some c =>
        if negb (first_packet_received c) then Done (new_client s) else Done s
    end
  else Done s.

Definition conn_timer_callback (gen : Z) (e : error_code) (s : State) : State :=
  if negb (is_error e) && negb (halt s) then
    let s := stats_error Error.CONNECTION_TIMEOUT s in
    if negb (paused s) && pause_on_connection_timeout (client_options s) then
      pause s
    else
      let s := add_event ClientEvent.ConnectionTimeout s in
      stop s
  else s.

Definition client_proto_connected (s : State) : State :=
  set_conn_timer_pending false (cancel ConnTimer s).

Definition queue_restart (s : State) : State :=
  let delay := 2 in
  let s := cancel ServerPoll s in
  let s := expires_at RestartWait (now s + delay) s in
  async_wait RestartWait (generation s) s.

Section WithChallengeResponse.

(** [ChallengeResponse::is_dynamic], declared in a header outside this
    file; the controller only tests its result. *)
Variable is_dynamic : string -> bool.

Definition client_proto_terminate (s : State) : Outcome :=
  if negb (halt s) then
    if dont_restart_ s then Done (stop s)
    else
      match client s with
      | None => NullDeref
      | Some c =>
          match fatal c with
          | Error.UNDEF => Done (queue_restart s)
          | Error.AUTH_FAILED =>
              let reason := fatal_reason c in
              let s :=
                if is_dynamic reason then
                  add_event (ClientEvent.DynamicChallenge reason) s
                else
                  let s := add_event (ClientEvent.AuthFailed reason) s in
                  stats_error Error.AUTH_FAILED s in
              Done (stop s)
          | Error.TUN_SETUP_FAILED =>
              let s := add_event (ClientEvent.TunSetupFailed (fatal_reason c)) s in
              let s := stats_error Error.TUN_SETUP_FAILED s in
              Done (stop s)
          | Error.TUN_IFACE_CREATE =>
              let s := add_event (ClientEvent.TunIfaceCreate (fatal_reason c)) s in
              let s := stats_error Error.TUN_IFACE_CREATE s in
              Done (stop s)
          | Error.TUN_IFACE_DISABLED =>
              let s := add_event (ClientEvent.TunIfaceDisabled (fatal_reason c)) s in
              let s := stats_error Error.TUN_IFACE_DISABLED s in
              Done (stop s)
          | Error.PROXY_ERROR =>
              let s := add_event (ClientEvent.ProxyError (fatal_reason c)) s in
              let s := stats_error Error.PROXY_ERROR s in
              Done (stop s)
          | Error.PROXY_NEED_CREDS =>
              let s := add_event (ClientEvent.ProxyNeedCreds (fatal_reason c)) s in
              let s := stats_error Error.PROXY_NEED_CREDS s in
              Done (stop s)
          | Error.CERT_VERIFY_FAIL =>
              let s := add_event (ClientEvent.CertVerifyFail (fatal_reason c)) s in
              let s := stats_error Error.CERT_VERIFY_FAIL s in
              Done (stop s)
          | Error.TLS_VERSION_MIN =>
              let s := add_event ClientEvent.TLSVersionMinFail s in
              let s := stats_error Error.TLS_VERSION_MIN s in
              Done (stop s)
          | Error.CLIENT_HALT =>
              let s := add_event (ClientEvent.ClientHalt (fatal_reason c)) s in
              let s := stats_error Error.CLIENT_HALT s in
              Done (stop s)
          | Error.CLIENT_RESTART =>
              let s := add_event (ClientEvent.ClientRestart (fatal_reason c)) s in
              let s := stats_error Error.CLIENT_RESTART s in
              Done (queue_restart s)
          | Error.INACTIVE_TIMEOUT =>
              let s := add_event ClientEvent.InactiveTimeout s in
              let s := stats_error Error.INACTIVE_TIMEOUT s in
              Done (stop s)
          | _ => Unhandled
          end
      end
  else Done s.

(** ** The event loop

    One [Label] per way the object is entered: a method called by its
    owner, a handler the [io_service] runs, a callback from a
    collaborator.  [L_session] and [L_tick] are moves of the surroundings:
    the session changes what its queries answer, time passes. *)

Inductive Label : Set :=
| L_start
| L_stop
| L_graceful_stop
| L_stop_on_signal
| L_pause
| L_resume
| L_reconnect (seconds : Z)
| L_dont_restart
| L_thread_safe_stop
| L_thread_safe_pause
| L_thread_safe_resume
| L_thread_safe_reconnect (seconds : Z)
| L_posted
| L_pre_resolve_done
| L_timer (id : TimerId) (i : nat) (e : error_code)
| L_client_proto_connected
| L_client_proto_terminate
| L_session (c : Session)
| L_tick (d : Z).

Definition run_posted (p : Posted) (s : State) : State :=
  match p with
  | P_graceful_stop => graceful_stop s
  | P_pause => pause s
  | P_resume => resume s
  | P_reconnect seconds => reconnect seconds s
  end.

Definition timer_callback (id : TimerId) (gen : Z) (e : error_code)
           (s : State) : Outcome :=
  match id with
  | ServerPoll => server_poll_callback gen e s
  | RestartWait => Done (restart_wait_callback gen e s)
  | ConnTimer => Done (conn_timer_callback gen e s)
  end.

Definition remove_nth {A : Type} (i : nat) (l : list A) : list A :=
  firstn i l ++ skipn (S i) l.

(** A wait is delivered with [operation_aborted] only after it was
    aborted, and with [success] only once its expiry has passed; an
    aborted wait whose expiry has passed may be delivered either way (the
    handler was already queued when the timer was cancelled). *)
Definition deliverable (w : Wait) (e : error_code) (t : Z) : bool :=
  match e with
  | operation_aborted => w_aborted w
  | success => w_expiry w <=? t
  end.

Definition step (l : Label) (s : State) : option Outcome :=
  match l with
  | L_start => Some (Done (start s))
  | L_stop => Some (Done (stop s))
  | L_graceful_stop => Some (Done (graceful_stop s))
  | L_stop_on_signal => Some (Done (stop_on_signal s))
  | L_pause => Some (Done (pause s))
  | L_resume => Some (Done (resume s))
  | L_reconnect seconds => Some (Done (reconnect seconds s))
  | L_dont_restart => Some (Done (dont_restart s))
  | L_thread_safe_stop => Some (Done (thread_safe_stop s))
  | L_thread_safe_pause => Some (Done (thread_safe_pause s))
  | L_thread_safe_resume => Some (Done (thread_safe_resume s))
  | L_thread_safe_reconnect seconds => Some (Done (thread_safe_reconnect seconds s))
  | L_posted =>
      match posted s with
      | [] => None
      | p :: q => Some (Done (run_posted p (set_posted q s)))
      end
  | L_pre_resolve_done =>
      if has_pre_resolve s then Some (Done (pre_resolve_done s)) else None
  | L_timer id i e =>
      match nth_error (waits (get_timer id s)) i with
      | Some w =>
          if deliverable w e (now s) then
            let t := get_timer id s in
            let t' := {| expiry := expiry t; waits := remove_nth i (waits t) |} in
            Some (timer_callback id (w_gen w) e (set_timer id t' s))
          else None
      | None => None
      end
  | L_client_proto_connected =>
      if has_client s then Some (Done (client_proto_connected s)) else None
  | L_client_proto_terminate =>
      if has_client s then Some (client_proto_terminate s) else None
  | L_session c =>
      if has_client s then Some (Done (set_client (Some c) s)) else None
  | L_tick d =>
      if 0 <=? d then Some (Done (set_now (now s + d) s)) else None
  end.

(** A run of the event loop that ends normally. *)
Fixpoint run (ls : list Label) (s : State) : option State :=
  match ls with
  | [] => Some s
  | l :: ls' =>
      match step l s with
      | Some (Done s') => run ls' s'
      | _ => None
      end
  end.

End WithChallengeResponse.

(** ** Vocabulary of the specification *)

(** The classifications after which another attempt is scheduled. *)
Definition retryable (e : Error.Type_) : bool :=
  match e with
  | Error.UNDEF | Error.CLIENT_RESTART => true
  | _ => false
  end.

(** The classifications the dispatch has a case for. *)
Definition recognized (e : Error.Type_) : bool :=
  match e with
  | Error.UNDEF | Error.AUTH_FAILED | Error.TUN_SETUP_FAILED
  | Error.TUN_IFACE_CREATE | Error.TUN_IFACE_DISABLED | Error.PROXY_ERROR
  | Error.PROXY_NEED_CREDS | Error.CERT_VERIFY_FAIL | Error.TLS_VERSION_MIN
  | Error.CLIENT_HALT | Error.CLIENT_RESTART | Error.INACTIVE_TIMEOUT => true
  | _ => false
  end.

(** The classification an event reports, for the events that report one. *)
Definition event_class (ev : ClientEvent.Base) : option Error.Type_ :=
  match ev with
  | ClientEvent.DynamicChallenge _ => Some Error.AUTH_FAILED
  | ClientEvent.AuthFailed _ => Some Error.AUTH_FAILED
  | ClientEvent.TunSetupFailed _ => Some Error.TUN_SETUP_FAILED
  | ClientEvent.TunIfaceCreate _ => Some Error.TUN_IFACE_CREATE
  | ClientEvent.TunIfaceDisabled _ => Some Error.TUN_IFACE_DISABLED
  | ClientEvent.ProxyError _ => Some Error.PROXY_ERROR
  | ClientEvent.ProxyNeedCreds _ => Some Error.PROXY_NEED_CREDS
  | ClientEvent.CertVerifyFail _ => Some Error.CERT_VERIFY_FAIL
  | ClientEvent.TLSVersionMinFail => Some Error.TLS_VERSION_MIN
  | ClientEvent.ClientHalt _ => Some Error.CLIENT_HALT
  | ClientEvent.ClientRestart _ => Some Error.CLIENT_RESTART
  | ClientEvent.InactiveTimeout => Some Error.INACTIVE_TIMEOUT
  | _ => None
  end.

(** The event that reports a terminal classification, as the table of the
    specification has it: an authentication failure is reported as a
    dynamic challenge when its reason is one and as AuthFailed otherwise,
    every other terminal classification by the event of its own name; the
    events that carry a reason carry the session's. *)
Definition terminal_event (is_dynamic : string -> bool)
           (e : Error.Type_) (reason : string) : option ClientEvent.Base :=
  match e with
  | Error.AUTH_FAILED =>
      Some (if is_dynamic reason then ClientEvent.DynamicChallenge reason
            else ClientEvent.AuthFailed reason)
  | Error.TUN_SETUP_FAILED => Some (ClientEvent.TunSetupFailed reason)
  | Error.TUN_IFACE_CREATE => Some (ClientEvent.TunIfaceCreate reason)
  | Error.TUN_IFACE_DISABLED => Some (ClientEvent.TunIfaceDisabled reason)
  | Error.PROXY_ERROR => Some (ClientEvent.ProxyError reason)
  | Error.PROXY_NEED_CREDS => Some (ClientEvent.ProxyNeedCreds reason)
  | Error.CERT_VERIFY_FAIL => Some (ClientEvent.CertVerifyFail reason)
  | Error.TLS_VERSION_MIN => Some ClientEvent.TLSVersionMinFail
  | Error.CLIENT_HALT => Some (ClientEvent.ClientHalt reason)
  | Error.INACTIVE_TIMEOUT => Some ClientEvent.InactiveTimeout
  | _ => None
  end.

(** The stat recorded with it: that of the classification, except for the
    dynamic challenge, which records none. *)
Definition terminal_stats (is_dynamic : string -> bool)
           (e : Error.Type_) (reason : string) : list Effect :=
  if Error.eqb e Error.AUTH_FAILED && is_dynamic reason then []
  else [StatError e].

(** What a retryable classification emits before the restart is armed:
    nothing when there was no fatal error, the ClientRestart event with the
    session's reason and its stat for a restart request. *)
Definition retry_effects (e : Error.Type_) (reason : string) : list Effect :=
  match e with
  | Error.CLIENT_RESTART =>
      [EvAdd (ClientEvent.ClientRestart reason); StatError Error.CLIENT_RESTART]
  | _ => []
  end.

(** The calls [l], made in order. *)
Definition emit_all (l : list Effect) (s : State) : State :=
  fold_left (fun s e => emit e s) l s.

(** What [stop] calls on the collaborators when it takes effect. *)
Definition stop_effects (s : State) : list Effect :=
  (if has_pre_resolve s then [PreResCancel] else []) ++
  (if has_client s then [ClientStop false] else []) ++
  [ClosePersistent; EvAdd ClientEvent.Disconnected].

(** The restart that [queue_restart] and [reconnect] arm: the waits of the
    restart timer are aborted and one wait, bound to the generation of [s],
    is added for [seconds] from now. *)
Definition restart_armed (seconds : Z) (s s' : State) : Prop :=
  restart_wait_timer s' =
    timer_async_wait (generation s)
      (timer_expires_at (now s + seconds) (restart_wait_timer s)).

Definition count (p : Effect -> bool) (l : list Effect) : nat :=
  List.length (filter p l).

Definition is_event (p : ClientEvent.Base -> bool) (e : Effect) : bool :=
  match e with EvAdd ev => p ev | _ => false end.

Definition is_any_event : Effect -> bool := is_event (fun _ => true).

Definition is_stat (x : Error.Type_) (e : Effect) : bool :=
  match e with StatError y => Error.eqb x y | _ => false end.

Definition is_client_new (e : Effect) : bool :=
  match e with ClientNew => true | _ => false end.


Definition is_exit_notify (e : Effect) : bool :=
  match e with ClientExitNotify => true | _ => false end.

Definition is_connection_timeout (ev : ClientEvent.Base) : bool :=
  match ev with ClientEvent.ConnectionTimeout => true | _ => false end.

Definition is_dynamic_challenge (ev : ClientEvent.Base) : bool :=
  match ev with ClientEvent.DynamicChallenge _ => true | _ => false end.

Definition is_auth_failed (ev : ClientEvent.Base) : bool :=
  match ev with ClientEvent.AuthFailed _ => true | _ => false end.

(** Every outstanding wait of the timer has been aborted. *)
Definition all_aborted (t : AsioTimer) : Prop :=
  Forall (fun w => w_aborted w = true) (waits t).

(** The session that [new_client] replaces had reached the connected state. *)
Definition prior_reached (s : State) : bool :=
  match client s with
  | Some c => reached_connected_state c
  | None => false
  end.

(** What [new_client] calls on the collaborators. *)
Definition new_client_effects (s : State) : list Effect :=
  (if has_client s then [ClientStop false] else []) ++
  (if 1 <? uint_incr (generation s) then
     [EvAdd ClientEvent.Reconnecting; StatError Error.N_RECONNECT] ++
     (if prior_reached s then [] else [OptNext])
   else []) ++
  [ClientNew; ClientStart].

(** No wait of [s'] is new: each was outstanding in [s], aborted or not. *)
Definition no_new_waits (s s' : State) : Prop :=
  forall id w', In w' (waits (get_timer id s')) ->
    exists w, In w (waits (get_timer id s)) /\ abort w' = abort w.

(** What a halted controller can still change. *)
Definition halted_frame (s s' : State) : Prop :=
  halt s' = true /\ trace s' = trace s /\ generation s' = generation s /\
  paused s' = paused s /\ (client s = None -> client s' = None) /\
  no_new_waits s s'.

(** While no session has been constructed, the generation is still 0 and
    the server-poll timer has never been armed. *)
Definition session_invariant (s : State) : Prop :=
  client s = None -> generation s = 0 /\ waits (server_poll_timer s) = [].

(** The ConnectionTimeout events of a trace. *)
Definition timeout_events (l : list Effect) : nat :=
  count (is_event is_connection_timeout) l.

(** [s'] keeps what [s] had: the invariant, the [dont_restart_] flag, the
    options, the [halt] flag; and a controller that is still running has
    emitted no further ConnectionTimeout event. *)
Definition preserved (s s' : State) : Prop :=
  (session_invariant s -> session_invariant s') /\
  (dont_restart_ s = true -> dont_restart_ s' = true) /\
  client_options s' = client_options s /\
  (halt s = true -> halt s' = true) /\
  (halt s' = false -> timeout_events (trace s') = timeout_events (trace s)).

(** ** Concrete runs *)

(** A stand-in for [ChallengeResponse::is_dynamic]: the reason starts with
    the dynamic-challenge tag. *)
Definition crv1_is_dynamic (reason : string) : bool :=
  String.prefix "CRV1:" reason.

Definition example_options : ClientOptions :=
  {| opt_conn_timeout := 5;
     pause_on_connection_timeout := false;
     server_poll_timeout_enabled := true;
     server_poll_timeout := 3;
     work_available := false |}.


(** The first attempt is under way. *)
Definition first_attempt : State :=
  Eval vm_compute in start (init example_options 0).

Definition session_reporting (e : Error.Type_) (reason : string) : Session :=
  {| first_packet_received := true;
     reached_connected_state := false;
     fatal := e;
     fatal_reason := reason |}.

Definition terminated_with (e : Error.Type_) (reason : string) : State :=
  set_client (Some (session_reporting e reason)) first_attempt.

(** The first attempt gets no packet for 3 seconds, the server-poll timer
    fires and a second attempt starts; 2 seconds later the connection
    timer, armed during the first attempt, is due. *)
Definition second_attempt_run : list Label :=
  [L_start; L_tick 3; L_timer ServerPoll 0%nat success; L_tick 2].


Definition after_stop_run : list Label :=
  [L_start; L_resume; L_reconnect 1; L_tick 9;
   L_timer ConnTimer 0%nat success; L_timer ServerPoll 0%nat operation_aborted;
   L_client_proto_terminate; L_client_proto_connected; L_thread_safe_pause].

(** The state [second_attempt_run] ends in. *)
Definition second_attempt : State :=
  Eval vm_compute in
    match run crv1_is_dynamic second_attempt_run (init example_options 0) with
    | Some s => s
    | None => init example_options 0
    end.


(** [dont_restart] is called, then the first attempt starts and its session
    reports a restart request. *)
Definition restart_requested_run : list Label :=
  [L_start; L_session (session_reporting Error.CLIENT_RESTART "again")].

Definition restart_requested : State :=
  Eval vm_compute in
    match run crv1_is_dynamic restart_requested_run
            (dont_restart (init example_options 0)) with
    | Some s => s
    | None => init example_options 0
    end.

(** The state [after_stop_run] ends in, started from a stopped controller. *)
Definition long_after_stop : State :=
  Eval vm_compute in
    match run crv1_is_dynamic after_stop_run (stop first_attempt) with
    | Some s => s
    | None => init example_options 0
    end.


(** ** Vocabulary of the event-loop invariants *)

Definition b2n (b : bool) : nat := if b then 1%nat else 0%nat.

(** The wait at position [i] of timer [id] leaves the timer: its handler is
    about to run. *)
Definition remove_wait (id : TimerId) (i : nat) (s : State) : State :=
  set_timer id
    {| expiry := expiry (get_timer id s);
       waits := remove_nth i (waits (get_timer id s)) |} s.

(** The calls that the termination dispatch and the graceful paths make
    besides the lifecycle ones. *)
Definition incidental (e : Effect) : bool :=
  match e with
  | EvAdd ev => match event_class ev with Some _ => true | None => false end
  | StatError x => recognized x
  | ClientExitNotify => true
  | _ => false
  end.

(** The waits of a timer that have not been aborted. *)
Definition live (t : AsioTimer) : nat :=
  List.length (filter (fun w => negb (w_aborted w)) (waits t)).

(** Every wait of the timer that has not been aborted is bound to [g]. *)
Definition fenced (g : Z) (t : AsioTimer) : Prop :=
  Forall (fun w => w_aborted w = false -> w_gen w = g) (waits t).

Definition is_disconnected (ev : ClientEvent.Base) : bool :=
  match ev with ClientEvent.Disconnected => true | _ => false end.

Definition is_close_persistent (e : Effect) : bool :=
  match e with ClosePersistent => true | _ => false end.

(** [stop] has taken effect exactly when the controller is halted, and then
    exactly once. *)
Definition lifecycle_invariant (s : State) : Prop :=
  count (is_event is_disconnected) (trace s) = b2n (halt s) /\
  count is_close_persistent (trace s) = b2n (halt s).

(** The work guard of the [io_service] is held only by a paused controller
    that is still running. *)
Definition work_invariant (s : State) : Prop :=
  asio_work s = true -> paused s = true /\ halt s = false.

Definition is_client_start (e : Effect) : bool :=
  match e with ClientStart => true | _ => false end.

Definition is_reconnecting (ev : ClientEvent.Base) : bool :=
  match ev with ClientEvent.Reconnecting => true | _ => false end.

(** The sessions constructed so far. *)
Definition sessions (s : State) : nat := count is_client_new (trace s).

(** The generation counts the sessions constructed (as an [unsigned int]
    does); every session constructed has been started; there is a session
    exactly when one has been constructed; and, as long as the counter has
    not wrapped, every attempt but the first was announced by one
    Reconnecting event and one reconnect stat. *)
Definition attempt_invariant (s : State) : Prop :=
  generation s = Z.of_nat (sessions s) mod UINT_MODULUS /\
  count is_client_start (trace s) = sessions s /\
  (client s = None <-> sessions s = 0%nat) /\
  (Z.of_nat (sessions s) < UINT_MODULUS ->
   count (is_event is_reconnecting) (trace s) = Nat.pred (sessions s) /\
   count (is_stat Error.N_RECONNECT) (trace s) = Nat.pred (sessions s)).

(** The timers as the controller keeps them: a server-poll or restart wait
    that has not been aborted is bound to the current generation, and each
    of those timers has at most one such wait; [conn_timer_pending] says
    whether the connection timer has a wait that has not been aborted, and
    it has at most one; a halted controller has none anywhere; and the
    server-poll timer is never armed when the option is off. *)
Definition timer_invariant (s : State) : Prop :=
  fenced (generation s) (server_poll_timer s) /\
  fenced (generation s) (restart_wait_timer s) /\
  (live (server_poll_timer s) <= 1)%nat /\
  (live (restart_wait_timer s) <= 1)%nat /\
  live (conn_timer s) = b2n (conn_timer_pending s) /\
  (halt s = true -> forall id, live (get_timer id s) = 0%nat) /\
  (server_poll_timeout_enabled (client_options s) = false ->
   waits (server_poll_timer s) = []).

(** A controller whose [conn_timeout] is not positive: the connection
    timer has never been armed and no ConnectionTimeout event was emitted. *)
Definition no_timeout_invariant (s : State) : Prop :=
  conn_timeout s <= 0 /\ waits (conn_timer s) = [] /\
  timeout_events (trace s) = 0%nat.

(** Options and runs that the invariants are tried on. *)
Definition polling_options : ClientOptions :=
  {| opt_conn_timeout := 30;
     pause_on_connection_timeout := true;
     server_poll_timeout_enabled := true;
     server_poll_timeout := 4;
     work_available := false |}.

Definition untimed_options : ClientOptions :=
  {| opt_conn_timeout := 0;
     pause_on_connection_timeout := false;
     server_poll_timeout_enabled := false;
     server_poll_timeout := 0;
     work_available := true |}.

Definition always_dynamic (reason : string) : bool := true.

(** Three attempts (start, a server-poll timeout, a pause and resume), a
    reconnect request, then [stop] twice. *)
Definition busy_run : list Label :=
  [L_start; L_tick 4; L_timer ServerPoll 0%nat success;
   L_thread_safe_pause; L_posted; L_resume; L_client_proto_connected;
   L_reconnect 7; L_stop; L_graceful_stop].

Definition busy_end : State :=
  Eval vm_compute in
    match run always_dynamic busy_run (init polling_options 0) with
    | Some s => s
    | None => init polling_options 0
    end.

(** Resolution, the first attempt, a pause; the controller is left paused. *)
Definition untimed_run : list Label :=
  [L_start; L_pre_resolve_done; L_tick 100; L_pause].

Definition untimed_end : State :=
  Eval vm_compute in
    match run always_dynamic untimed_run (init untimed_options 0) with
    | Some s => s
    | None => init untimed_options 0
    end.

(** Two attempts, then a reconnect request: the controller is running
    with waits on all three timers. *)
Definition polling_run : list Label :=
  [L_start; L_tick 4; L_timer ServerPoll 0%nat success; L_reconnect 7].

Definition polling_end : State :=
  Eval vm_compute in
    match run always_dynamic polling_run (init polling_options 0) with
    | Some s => s
    | None => init polling_options 0
    end.

(** The first attempt under [polling_options]. *)
Definition polling_first : State :=
  Eval vm_compute in start (init polling_options 0).

(** * Registry utilities for Windows ([openvpn/win/reg.hpp]) *)

Module Win.

Definition HKEY : Set := Z.

(** The null handle. *)
Definition nullptr : HKEY := 0.

Definition ERROR_SUCCESS : Z := 0.

Definition INT_MAX : Z := 2147483647.

(** What the registry answers.  Each function gives the status returned
    and what the call leaves in its output argument: the handle in
    [*phkResult] (the null handle it started with, if the call does not
    write it), the number of subkeys, the name in the buffer.  The access
    mask of [RegOpenKeyExA] is a constant of the caller and is left out;
    [RegEnumKeyExA] is given the index and the size of the buffer. *)
Record Registry : Set := {
  RegOpenKeyExA : HKEY -> string -> Z * HKEY;
  RegQueryInfoKeyA : HKEY -> Z * Z;
  RegEnumKeyExA : HKEY -> Z -> Z -> Z * string
}.

(** The calls made on the registry, in program order. *)
Inductive Call : Set :=
| Open (hkey : HKEY) (path : string)
| Query (key : HKEY)
| Enum (key : HKEY) (index : Z)
| Close (key : HKEY).

(** [RegKey], the HKEY wrapper. *)
Record RegKey : Set := { key : HKEY }.

Definition RegKey_new : RegKey := {| key := nullptr |}.

Definition defined (k : RegKey) : bool := negb (key k =? nullptr).

(** The destructor. *)
Definition RegKey_destroy (k : RegKey) : list Call :=
  if defined k then [Close (key k)] else [].

Definition MAX_KEY_LENGTH : Z := 255.

(** The loop of the constructor, with [remaining] iterations to go from
    index [i] ([i < subkeys_num] holds exactly while [remaining] is not 0).
    The index is an [int]: incrementing it at [INT_MAX] has no defined
    result, which is [None]. *)
Fixpoint enum_loop (reg : Registry) (k : HKEY) (remaining : nat) (i : Z)
         (v : list string) (calls : list Call)
  : option (list string * list Call) :=
  match remaining with
  | O => Some (v, calls)
  | S r =>
      let (status, subkey) := RegEnumKeyExA reg k i MAX_KEY_LENGTH in
      let v := if status =? ERROR_SUCCESS then v ++ [subkey] else v in
      if i =? INT_MAX then None
      else enum_loop reg k r (i + 1) v (calls ++ [Enum k i])
  end.

(** The constructor of [RegKeyEnumerator]: the vector it leaves and the
    calls it made, the destructor of its [RegKey] included. *)
Definition RegKeyEnumerator (reg : Registry) (hkey : HKEY) (path : string)
  : option (list string * list Call) :=
  let (status, k) := RegOpenKeyExA reg hkey path in
  let regKey := {| key := k |} in
  if negb (status =? ERROR_SUCCESS) then
    Some ([], [Open hkey path] ++ RegKey_destroy regKey)
  else
    let (status, subkeys_num) := RegQueryInfoKeyA reg (key regKey) in
    if negb (status =? ERROR_SUCCESS) then
      Some ([], [Open hkey path; Query (key regKey)] ++ RegKey_destroy regKey)
    else
      match enum_loop reg (key regKey) (Z.to_nat subkeys_num) 0 []
              [Open hkey path; Query (key regKey)] with
      | Some (v, calls) => Some (v, calls ++ RegKey_destroy regKey)
      | None => None
      end.

(** The indices [i], [i+1], ... of [n] iterations. *)
Fixpoint indices (i : Z) (n : nat) : list Z :=
  match n with
  | O => []
  | S r => i :: indices (i + 1) r
  end.

(** The names of the subkeys whose enumeration succeeds, in index order. *)
Definition enumerable (reg : Registry) (k : HKEY) (l : list Z) : list string :=
  flat_map (fun i =>
              let (status, subkey) := RegEnumKeyExA reg k i MAX_KEY_LENGTH in
              if status =? ERROR_SUCCESS then [subkey] else [])
           l.

Definition is_close (c : Call) : bool :=
  match c with Close _ => true | _ => false end.

Definition is_enum (c : Call) : bool :=
  match c with Enum _ _ => true | _ => false end.

(** A registry with three subkeys under handle 7, the second of which
    cannot be enumerated. *)
Definition three_keys : Registry :=
  {| RegOpenKeyExA := fun _ path =>
       if String.eqb path "SOFTWARE\OpenVPN" then (0, 7) else (2, 0);
     RegQueryInfoKeyA := fun k => if k =? 7 then (0, 3) else (6, 0);
     RegEnumKeyExA := fun k i _ =>
       if i =? 0 then (0, "alpha"%string)
       else if i =? 1 then (234, EmptyString)
       else if i =? 2 then (0, "gamma"%string)
       else (259, EmptyString) |}.

End Win.

(** ** Basic facts about [stop] and the timers *)

Lemma stop_when_halted (s : State) : halt s = true -> stop s = s.
Proof. intros H. unfold stop. rewrite H. reflexivity. Qed.

Lemma halt_stop (s : State) : halt (stop s) = true.
Proof.
  unfold stop. destruct (halt s) eqn:H; simpl; [exact H|].
  destruct (has_pre_resolve _), (has_client _); reflexivity.
Qed.

Lemma trace_stop (s : State) :
  halt s = false -> trace (stop s) = trace s ++ stop_effects s.
Proof.
  intros H. unfold stop, stop_effects. rewrite H. simpl.
  destruct s as [g h p d ct o [c|] spt rwt cnt cp w [pr|] t q tr];
    simpl; rewrite <- ?app_assoc; reflexivity.
Qed.

Lemma all_aborted_cancel (t : AsioTimer) : all_aborted (timer_cancel t).
Proof.
  unfold all_aborted, timer_cancel. simpl.
  induction (waits t) as [|w l IH]; simpl; constructor; auto.
Qed.

Lemma stop_aborts_timers (s : State) (id : TimerId) :
  halt s = false -> all_aborted (get_timer id (stop s)).
Proof.
  intros H. unfold stop. rewrite H.
  destruct s as [g h p d ct o [c|] spt rwt cnt cp w [pr|] t q tr];
    destruct id; simpl; apply all_aborted_cancel.
Qed.

(** ** Proof automation *)

Ltac break_match :=
  match goal with
  | |- context [if ?b then _ else _] => destruct b eqn:?
  | |- context [match ?x with Some _ => _ | None => _ end] => destruct x eqn:?
  end.

(** Callers come before the methods they call. *)
Ltac unfold_methods :=
  unfold stop_on_signal, graceful_stop, thread_safe_stop, thread_safe_pause,
    thread_safe_resume, thread_safe_reconnect, post,
    restart_wait_callback, conn_timer_callback,
    pre_resolve_done, start, resume, pause, stop, reconnect, dont_restart,
    client_proto_connected, queue_restart, new_client,
    conn_timer_start, cancel_timers, cancel, expires_at, async_wait, add_event,
    stats_error, has_client, has_pre_resolve.

Ltac by_cases s :=
  unfold_methods; destruct s; simpl; repeat (break_match; simpl in *); auto.

(** ** [new_client] *)

Lemma trace_new_client (s : State) :
  trace (new_client s) = trace s ++ new_client_effects s.
Proof.
  unfold new_client_effects, prior_reached. by_cases s;
    rewrite <- ?app_assoc; simpl; try reflexivity; try discriminate.
Qed.

Lemma client_new_client (s : State) : client (new_client s) = Some fresh_session.
Proof. by_cases s. Qed.

Lemma generation_new_client (s : State) :
  generation (new_client s) = uint_incr (generation s).
Proof. by_cases s. Qed.

Lemma halt_new_client (s : State) : halt (new_client s) = halt s.
Proof. by_cases s. Qed.

Lemma paused_new_client (s : State) : paused (new_client s) = paused s.
Proof. by_cases s. Qed.

Lemma dont_restart_new_client (s : State) :
  dont_restart_ (new_client s) = dont_restart_ s.
Proof. by_cases s. Qed.

Lemma count_app (p : Effect -> bool) (l1 l2 : list Effect) :
  count p (l1 ++ l2) = (count p l1 + count p l2)%nat.
Proof. unfold count. rewrite filter_app, length_app. reflexivity. Qed.

(** ** Termination dispatch, endpoint rotation, pause and stop *)

Lemma trace_emit_all (l : list Effect) (s : State) :
  trace (emit_all l s) = trace s ++ l.
Proof.
  unfold emit_all. revert s. induction l as [|e l IH]; intros s; simpl.
  - rewrite app_nil_r. reflexivity.
  - rewrite IH. simpl. rewrite <- app_assoc. reflexivity.
Qed.

Lemma emit_all_frame (l : list Effect) (s : State) :
  halt (emit_all l s) = halt s /\
  stop_effects (emit_all l s) = stop_effects s.
Proof.
  unfold emit_all. revert s. induction l as [|e l IH]; intros s; simpl.
  - split; reflexivity.
  - destruct (IH (emit e s)) as [A B]. rewrite A, B. split; reflexivity.
Qed.

(** C1.  A session-terminated callback processed while not halted and with
    [dont_restart_] unset.  For [UNDEF] and [CLIENT_RESTART], and for no
    other classification, the result is [queue_restart]: nothing is emitted
    for [UNDEF], the ClientRestart event with the session's reason and its
    stat for [CLIENT_RESTART], then a restart is armed for 2 seconds from
    now and the controller stays running.  Every other classification the
    dispatch has a case for emits exactly the event of the table
    ([terminal_event]: its own event, with the session's reason; for an
    authentication failure DynamicChallenge or AuthFailed according to
    [is_dynamic]), then the stat of that classification (the dynamic
    challenge alone records none), and then it is [stop]: the controller is
    halted and every restart wait is aborted.  Any other classification
    throws [client_connect_unhandled_exception]. *)
Theorem client_proto_terminate_classification
  (is_dynamic : string -> bool) (s : State) (c : Session) :
  halt s = false -> dont_restart_ s = false -> client s = Some c ->
  (retryable (fatal c) = true ->
   exists s', client_proto_terminate is_dynamic s = Done s' /\
     s' = queue_restart (emit_all (retry_effects (fatal c) (fatal_reason c)) s) /\
     halt s' = false /\ restart_armed 2 s s' /\
     trace s' = trace s ++
       match fatal c with
       | Error.UNDEF => []
       | x => [EvAdd (ClientEvent.ClientRestart (fatal_reason c)); StatError x]
       end) /\
  (recognized (fatal c) = true -> retryable (fatal c) = false ->
   exists s' ev, client_proto_terminate is_dynamic s = Done s' /\
     terminal_event is_dynamic (fatal c) (fatal_reason c) = Some ev /\
     s' = stop (emit_all
                  (EvAdd ev ::
                   terminal_stats is_dynamic (fatal c) (fatal_reason c)) s) /\
     event_class ev = Some (fatal c) /\
     (is_dynamic_challenge ev = true <->
      fatal c = Error.AUTH_FAILED /\ is_dynamic (fatal_reason c) = true) /\
     trace s' = trace s ++
       EvAdd ev ::
       (if is_dynamic_challenge ev then [] else [StatError (fatal c)]) ++
       stop_effects s /\
     halt s' = true /\ all_aborted (restart_wait_timer s')) /\
  (recognized (fatal c) = false ->
   client_proto_terminate is_dynamic s = Unhandled).
Proof.
  intros Hh Hd Hc.
  assert (Hterm : forall ev,
    terminal_event is_dynamic (fatal c) (fatal_reason c) = Some ev ->
    event_class ev = Some (fatal c) ->
    (is_dynamic_challenge ev = true <->
     fatal c = Error.AUTH_FAILED /\ is_dynamic (fatal_reason c) = true) ->
    terminal_stats is_dynamic (fatal c) (fatal_reason c) =
      (if is_dynamic_challenge ev then [] else [StatError (fatal c)]) ->
    client_proto_terminate is_dynamic s =
      Done (stop (emit_all
                    (EvAdd ev ::
                     terminal_stats is_dynamic (fatal c) (fatal_reason c)) s)) ->
    exists s' ev', client_proto_terminate is_dynamic s = Done s' /\
      terminal_event is_dynamic (fatal c) (fatal_reason c) = Some ev' /\
      s' = stop (emit_all
                   (EvAdd ev' ::
                    terminal_stats is_dynamic (fatal c) (fatal_reason c)) s) /\
      event_class ev' = Some (fatal c) /\
      (is_dynamic_challenge ev' = true <->
       fatal c = Error.AUTH_FAILED /\ is_dynamic (fatal_reason c) = true) /\
      trace s' = trace s ++ EvAdd ev' ::
        (if is_dynamic_challenge ev' then [] else [StatError (fatal c)]) ++
        stop_effects s /\
      halt s' = true /\ all_aborted (restart_wait_timer s')).
  { intros ev Hev Hcl Hdc Hst E.
    set (l := EvAdd ev :: terminal_stats is_dynamic (fatal c) (fatal_reason c))
      in *.
    destruct (emit_all_frame l s) as [F1 F2].
    assert (H1 : halt (emit_all l s) = false) by (rewrite F1; exact Hh).
    exists (stop (emit_all l s)), ev.
    split; [exact E|]. split; [exact Hev|]. split; [reflexivity|].
    split; [exact Hcl|]. split; [exact Hdc|]. split; [|split].
    - rewrite trace_stop by exact H1. rewrite trace_emit_all, F2.
      unfold l. rewrite Hst. rewrite <- app_assoc. reflexivity.
    - apply halt_stop.
    - apply (stop_aborts_timers _ RestartWait H1). }
  split; [|split].
  - intros Hr. unfold client_proto_terminate. rewrite Hh, Hd, Hc. simpl.
    destruct (fatal c); try discriminate Hr.
    + eexists; split; [reflexivity|]. split; [reflexivity|].
      split; [exact Hh|].
      split; [reflexivity|]. simpl. rewrite app_nil_r. reflexivity.
    + eexists; split; [reflexivity|]. split; [reflexivity|].
      split; [exact Hh|].
      split; [reflexivity|]. simpl. rewrite <- app_assoc. reflexivity.
  - intros Hrec Hret.
    destruct (fatal c) eqn:Hf; try discriminate Hrec; try discriminate Hret.
    + destruct (is_dynamic (fatal_reason c)) eqn:Hdyn.
      * apply (Hterm (ClientEvent.DynamicChallenge (fatal_reason c))).
        -- simpl. rewrite Hdyn. reflexivity.
        -- reflexivity.
        -- simpl. split; auto.
        -- unfold terminal_stats. simpl. rewrite Hdyn. reflexivity.
        -- unfold client_proto_terminate, terminal_stats.
           rewrite Hh, Hd, Hc, Hf. simpl. rewrite Hdyn. reflexivity.
      * apply (Hterm (ClientEvent.AuthFailed (fatal_reason c))).
        -- simpl. rewrite Hdyn. reflexivity.
        -- reflexivity.
        -- simpl. split; [discriminate|intros [_ H]; discriminate H].
        -- unfold terminal_stats. simpl. rewrite Hdyn. reflexivity.
        -- unfold client_proto_terminate, terminal_stats.
           rewrite Hh, Hd, Hc, Hf. simpl. rewrite Hdyn. reflexivity.
    + apply (Hterm (ClientEvent.TunSetupFailed (fatal_reason c)));
        [reflexivity|reflexivity
        |simpl; split; [discriminate|intros [H _]; discriminate H]
        |reflexivity
        |unfold client_proto_terminate; rewrite Hh, Hd, Hc, Hf; reflexivity].
    + apply (Hterm (ClientEvent.TunIfaceCreate (fatal_reason c)));
        [reflexivity|reflexivity
        |simpl; split; [discriminate|intros [H _]; discriminate H]
        |reflexivity
        |unfold client_proto_terminate; rewrite Hh, Hd, Hc, Hf; reflexivity].
    + apply (Hterm (ClientEvent.TunIfaceDisabled (fatal_reason c)));
        [reflexivity|reflexivity
        |simpl; split; [discriminate|intros [H _]; discriminate H]
        |reflexivity
        |unfold client_proto_terminate; rewrite Hh, Hd, Hc, Hf; reflexivity].
    + apply (Hterm (ClientEvent.ProxyError (fatal_reason c)));
        [reflexivity|reflexivity
        |simpl; split; [discriminate|intros [H _]; discriminate H]
        |reflexivity
        |unfold client_proto_terminate; rewrite Hh, Hd, Hc, Hf; reflexivity].
    + apply (Hterm (ClientEvent.ProxyNeedCreds (fatal_reason c)));
        [reflexivity|reflexivity
        |simpl; split; [discriminate|intros [H _]; discriminate H]
        |reflexivity
        |unfold client_proto_terminate; rewrite Hh, Hd, Hc, Hf; reflexivity].
    + apply (Hterm (ClientEvent.CertVerifyFail (fatal_reason c)));
        [reflexivity|reflexivity
        |simpl; split; [discriminate|intros [H _]; discriminate H]
        |reflexivity
        |unfold client_proto_terminate; rewrite Hh, Hd, Hc, Hf; reflexivity].
    + apply (Hterm ClientEvent.TLSVersionMinFail);
        [reflexivity|reflexivity
        |simpl; split; [discriminate|intros [H _]; discriminate H]
        |reflexivity
        |unfold client_proto_terminate; rewrite Hh, Hd, Hc, Hf; reflexivity].
    + apply (Hterm (ClientEvent.ClientHalt (fatal_reason c)));
        [reflexivity|reflexivity
        |simpl; split; [discriminate|intros [H _]; discriminate H]
        |reflexivity
        |unfold client_proto_terminate; rewrite Hh, Hd, Hc, Hf; reflexivity].
    + apply (Hterm ClientEvent.InactiveTimeout);
        [reflexivity|reflexivity
        |simpl; split; [discriminate|intros [H _]; discriminate H]
        |reflexivity
        |unfold client_proto_terminate; rewrite Hh, Hd, Hc, Hf; reflexivity].
  - intros Hrec. unfold client_proto_terminate. rewrite Hh, Hd, Hc. simpl.
    destruct (fatal c); try discriminate Hrec; reflexivity.
Qed.



(** C8.  A session that terminates with [AUTH_FAILED] and a reason that is a
    dynamic challenge: the controller emits one DynamicChallenge event,
    neither an AuthFailed event nor the auth-failed stat, and then [stop]
    takes effect. *)
Theorem dynamic_challenge_stops
  (is_dynamic : string -> bool) (s : State) (c : Session) :
  halt s = false -> dont_restart_ s = false -> client s = Some c ->
  fatal c = Error.AUTH_FAILED -> is_dynamic (fatal_reason c) = true ->
  exists s',
    client_proto_terminate is_dynamic s = Done s' /\
    halt s' = true /\
    trace s' =
      trace s ++
      EvAdd (ClientEvent.DynamicChallenge (fatal_reason c)) :: stop_effects s /\
    count (is_event is_dynamic_challenge) (trace s') =
      S (count (is_event is_dynamic_challenge) (trace s)) /\
    count (is_event is_auth_failed) (trace s') =
      count (is_event is_auth_failed) (trace s) /\
    count (is_stat Error.AUTH_FAILED) (trace s') =
      count (is_stat Error.AUTH_FAILED) (trace s).
Proof.
  intros Hh Hd Hc Hf Hdyn.
  unfold client_proto_terminate. rewrite Hh, Hd, Hc, Hf, Hdyn. simpl.
  eexists. split; [reflexivity|].
  assert (Ht : trace (stop (add_event (ClientEvent.DynamicChallenge (fatal_reason c)) s)) =
               trace s ++ EvAdd (ClientEvent.DynamicChallenge (fatal_reason c))
                 :: stop_effects s).
  { rewrite trace_stop by exact Hh. simpl. rewrite <- app_assoc. reflexivity. }
  split; [apply halt_stop|]. split; [exact Ht|].
  rewrite Ht, !count_app. unfold stop_effects, has_pre_resolve, has_client.
  destruct (pre_resolve s), (client s); cbn; repeat split; lia.
Qed.

(** C9.  [thread_safe_stop], when not halted, posts [graceful_stop] (and
    does nothing else); [graceful_stop], run on a state that is not halted
    and has a session, calls [send_explicit_exit_notify] on it before
    anything [stop] does; [stop] itself never calls it. *)
Theorem thread_safe_stop_is_graceful (is_dynamic : string -> bool) (s : State) :
  halt s = false ->
  thread_safe_stop s = post P_graceful_stop s /\
  posted (thread_safe_stop s) = posted s ++ [P_graceful_stop] /\
  trace (thread_safe_stop s) = trace s /\
  (forall s1, run_posted P_graceful_stop s1 = graceful_stop s1) /\
  (forall s1, halt s1 = false -> has_client s1 = true ->
     trace (graceful_stop s1) = trace s1 ++ ClientExitNotify :: stop_effects s1) /\
  (forall s1, count is_exit_notify (trace (stop s1)) =
              count is_exit_notify (trace s1)).
Proof.
  intros Hh. unfold thread_safe_stop. rewrite Hh. simpl.
  repeat split.
  - intros s1 H1 H2. unfold graceful_stop. rewrite H1, H2. simpl.
    rewrite trace_stop by exact H1. simpl.
    rewrite <- app_assoc. unfold stop_effects, has_pre_resolve, has_client.
    reflexivity.
  - intros s1. destruct (halt s1) eqn:H1.
    + rewrite stop_when_halted by exact H1. reflexivity.
    + rewrite trace_stop, count_app by exact H1.
      unfold stop_effects. destruct (has_pre_resolve s1), (has_client s1);
        cbn; lia.
Qed.

(** ** Facts about one step of the event loop *)

Lemma abort_abort (w : Wait) : abort (abort w) = abort w.
Proof. reflexivity. Qed.

Lemma no_new_waits_refl (s : State) : no_new_waits s s.
Proof. intros id w H. exists w. auto. Qed.

Lemma no_new_waits_same (s s' : State) :
  (forall id, get_timer id s' = get_timer id s) -> no_new_waits s s'.
Proof. intros E id w H. rewrite E in H. exists w. auto. Qed.

Lemma no_new_waits_trans (s1 s2 s3 : State) :
  no_new_waits s1 s2 -> no_new_waits s2 s3 -> no_new_waits s1 s3.
Proof.
  intros H12 H23 id w3 H3.
  destruct (H23 id w3 H3) as (w2 & I2 & E2).
  destruct (H12 id w2 I2) as (w1 & I1 & E1).
  exists w1. split; [exact I1|congruence].
Qed.

Lemma In_remove_nth {A : Type} (i : nat) (l : list A) (x : A) :
  In x (remove_nth i l) -> In x l.
Proof.
  unfold remove_nth. intros H. apply in_app_or in H. destruct H as [H|H].
  - rewrite <- (firstn_skipn i l). apply in_or_app. left. exact H.
  - rewrite <- (firstn_skipn (S i) l). apply in_or_app. right. exact H.
Qed.

Lemma halted_frame_refl (s : State) : halt s = true -> halted_frame s s.
Proof.
  intros H. unfold halted_frame. repeat split; auto. apply no_new_waits_refl.
Qed.

Lemma run_posted_halted (is_dynamic : string -> bool) (p : Posted) (s : State) :
  halt s = true -> run_posted p s = s.
Proof.
  intros H. destruct p; simpl.
  - unfold graceful_stop. rewrite H. simpl. apply stop_when_halted, H.
  - unfold pause. rewrite H. reflexivity.
  - unfold resume. rewrite H. reflexivity.
  - unfold reconnect. rewrite H. reflexivity.
Qed.

Lemma step_halted (is_dynamic : string -> bool) (l : Label) (s : State) :
  halt s = true ->
  step is_dynamic l s = None \/
  exists s', step is_dynamic l s = Some (Done s') /\ halted_frame s s'.
Proof.
  intros H.
  assert (Hid : forall o, o = Some (Done s) ->
            o = None \/ exists s', o = Some (Done s') /\ halted_frame s s').
  { intros o ->. right. exists s. split; [reflexivity|].
    apply halted_frame_refl, H. }
  destruct l; simpl.
  - apply Hid. unfold start. rewrite H, andb_false_r. reflexivity.
  - apply Hid. rewrite stop_when_halted by exact H. reflexivity.
  - apply Hid. unfold graceful_stop. rewrite H. simpl.
    rewrite stop_when_halted by exact H. reflexivity.
  - apply Hid. unfold stop_on_signal. rewrite stop_when_halted by exact H.
    reflexivity.
  - apply Hid. unfold pause. rewrite H. reflexivity.
  - apply Hid. unfold resume. rewrite H. reflexivity.
  - apply Hid. unfold reconnect. rewrite H. reflexivity.
  - right. eexists. split; [reflexivity|].
    unfold halted_frame, dont_restart. simpl. repeat split; auto.
    apply no_new_waits_same; intros []; reflexivity.
  - apply Hid. unfold thread_safe_stop. rewrite H. reflexivity.
  - apply Hid. unfold thread_safe_pause. rewrite H. reflexivity.
  - apply Hid. unfold thread_safe_resume. rewrite H. reflexivity.
  - apply Hid. unfold thread_safe_reconnect. rewrite H. reflexivity.
  - destruct (posted s) as [|p q] eqn:Hq; [left; reflexivity|].
    right. eexists. split; [reflexivity|].
    rewrite (run_posted_halted is_dynamic) by exact H.
    unfold halted_frame. simpl. repeat split; auto. apply no_new_waits_same; intros []; reflexivity.
  - destruct (has_pre_resolve s); [|left; reflexivity].
    apply Hid. unfold pre_resolve_done. rewrite H. reflexivity.
  - destruct (nth_error (waits (get_timer id s)) i) as [w|] eqn:Hw;
      [|left; reflexivity].
    destruct (deliverable w e (now s)); [|left; reflexivity].
    right.
    set (s1 := set_timer id _ s).
    assert (H1 : halt s1 = true) by exact H.
    assert (Hcb : timer_callback id (w_gen w) e s1 = Done s1).
    { destruct id; simpl;
        unfold server_poll_callback, restart_wait_callback, conn_timer_callback;
        rewrite H1, ?andb_false_r; reflexivity. }
    exists s1. split; [rewrite Hcb; reflexivity|].
    unfold halted_frame. repeat split; auto.
    intros id' w' Hin. exists w'. split; [|reflexivity].
    subst s1. destruct id, id'; simpl in Hin; auto;
      apply In_remove_nth in Hin; exact Hin.
  - destruct (has_client s); [|left; reflexivity].
    right. eexists. split; [reflexivity|].
    unfold halted_frame, client_proto_connected, cancel. simpl.
    repeat split; auto.
    intros id w' Hin. destruct id; simpl in Hin;
      try (exists w'; split; [exact Hin|reflexivity]).
    apply in_map_iff in Hin. destruct Hin as (w & <- & Hin).
    exists w. split; [exact Hin|reflexivity].
  - destruct (has_client s); [|left; reflexivity].
    apply Hid. unfold client_proto_terminate. rewrite H. reflexivity.
  - destruct (has_client s) eqn:Hc; [|left; reflexivity].
    right. eexists. split; [reflexivity|].
    unfold halted_frame. simpl. repeat split; auto.
    + unfold has_client in Hc. intros E. rewrite E in Hc. discriminate.
    + apply no_new_waits_same; intros []; reflexivity.
  - destruct (0 <=? d); [|left; reflexivity].
    right. eexists. split; [reflexivity|].
    unfold halted_frame. simpl. repeat split; auto. apply no_new_waits_same; intros []; reflexivity.
Qed.

Lemma run_halted (is_dynamic : string -> bool) (ls : list Label) :
  forall s s', halt s = true -> run is_dynamic ls s = Some s' ->
               halted_frame s s'.
Proof.
  induction ls as [|l ls IH]; simpl; intros s s' H Hrun.
  - injection Hrun as <-. apply halted_frame_refl, H.
  - destruct (step_halted is_dynamic l s H) as [E|(s1 & E & F)];
      rewrite E in Hrun; [discriminate|].
    destruct F as (F1 & F2 & F3 & F4 & F5 & F6).
    destruct (IH s1 s' F1 Hrun) as (G1 & G2 & G3 & G4 & G5 & G6).
    unfold halted_frame. repeat split; try congruence; auto.
    eapply no_new_waits_trans; eauto.
Qed.

(** C3.  Once [stop] has taken effect, whatever is run afterwards: [halt]
    stays true; nothing is called on the collaborators (no event, no stat,
    no session constructed or started); the generation does not change; no
    timer gets a wait that was not already outstanding; and every entry
    that is enabled returns normally. *)
Theorem stop_is_final
  (is_dynamic : string -> bool) (s0 : State) (ls : list Label) (s' : State) :
  run is_dynamic ls (stop s0) = Some s' ->
  halt s' = true /\
  trace s' = trace (stop s0) /\
  generation s' = generation (stop s0) /\
  no_new_waits (stop s0) s' /\
  (forall l, step is_dynamic l s' = None \/
             exists s'', step is_dynamic l s' = Some (Done s'') /\
                         halt s'' = true /\ trace s'' = trace s').
Proof.
  intros Hrun.
  destruct (run_halted is_dynamic ls _ _ (halt_stop s0) Hrun)
    as (F1 & F2 & F3 & _ & _ & F6).
  repeat split; auto.
  intros l. destruct (step_halted is_dynamic l s' F1) as [E|(s1 & E & G)];
    [left; exact E|right].
  exists s1. destruct G as (G1 & G2 & _). auto.
Qed.

(** ** Invariants of the event loop *)

Lemma preserved_refl (s : State) : preserved s s.
Proof. unfold preserved. auto. Qed.

Lemma preserved_trans (s1 s2 s3 : State) :
  preserved s1 s2 -> preserved s2 s3 -> preserved s1 s3.
Proof.
  intros (A1 & A2 & A3 & A4 & A5) (B1 & B2 & B3 & B4 & B5).
  unfold preserved.
  split; [auto|]. split; [auto|]. split; [congruence|]. split; [auto|].
  intros H3. rewrite (B5 H3). apply A5.
  destruct (halt s2); [|reflexivity].
  rewrite (B4 eq_refl) in H3. discriminate.
Qed.

Lemma timeout_events_new_client (s : State) :
  timeout_events (trace (new_client s)) = timeout_events (trace s).
Proof.
  unfold timeout_events. rewrite trace_new_client, count_app.
  unfold new_client_effects.
  destruct (has_client s), (1 <? uint_incr (generation s)), (prior_reached s);
    cbn; lia.
Qed.

Lemma client_options_new_client (s : State) :
  client_options (new_client s) = client_options s.
Proof. by_cases s. Qed.

Lemma preserved_new_client (s : State) : preserved s (new_client s).
Proof.
  unfold preserved. split; [|split; [|split; [|split]]].
  - intros _ H. rewrite client_new_client in H. discriminate.
  - rewrite dont_restart_new_client. auto.
  - apply client_options_new_client.
  - rewrite halt_new_client. auto.
  - intros _. apply timeout_events_new_client.
Qed.

Ltac finish_preserved :=
  split; [|split; [|split; [|split]]];
  [ let Hinv := fresh "Hinv" in
    let Hnone := fresh "Hnone" in
    intros Hinv Hnone; try discriminate;
    let Hg := fresh "Hg" in
    let Hw := fresh "Hw" in
    destruct (Hinv Hnone) as [Hg Hw]; simpl in *; try rewrite Hw; auto
  | simpl; auto
  | reflexivity
  | simpl; auto
  | simpl; intros; try discriminate; unfold timeout_events;
    rewrite ?count_app; cbn; lia ].

Ltac preserve s :=
  unfold preserved, session_invariant;
  unfold stop_on_signal, graceful_stop, thread_safe_stop, thread_safe_pause,
    thread_safe_resume, thread_safe_reconnect, post, conn_timer_callback,
    pause, stop, reconnect, dont_restart,
    client_proto_connected, queue_restart,
    cancel_timers, cancel, expires_at, async_wait, add_event,
    stats_error, has_client, has_pre_resolve;
  destruct s; simpl; repeat (break_match; simpl in *); finish_preserved.

Lemma preserved_emit (e : Effect) (s : State) :
  is_event is_connection_timeout e = false -> preserved s (emit e s).
Proof.
  intros He. unfold preserved, session_invariant, timeout_events.
  destruct s; simpl.
  split; [auto|]. split; [auto|]. split; [reflexivity|]. split; [auto|].
  intros _. rewrite count_app. unfold count at 2. simpl. rewrite He.
  simpl. lia.
Qed.

Lemma preserved_stop (s : State) : preserved s (stop s).
Proof. preserve s. Qed.

Lemma preserved_graceful_stop (s : State) : preserved s (graceful_stop s).
Proof.
  unfold graceful_stop. destruct (negb (halt s) && has_client s).
  - eapply preserved_trans; [|apply preserved_stop].
    apply preserved_emit. reflexivity.
  - apply preserved_stop.
Qed.

Lemma preserved_pause (s : State) : preserved s (pause s).
Proof. preserve s. Qed.

Lemma preserved_resume (s : State) : preserved s (resume s).
Proof.
  unfold resume. destruct (negb (halt s) && paused s);
    [|apply preserved_refl].
  eapply preserved_trans; [|apply preserved_new_client].
  preserve s.
Qed.

Lemma preserved_reconnect (seconds : Z) (s : State) :
  preserved s (reconnect seconds s).
Proof. preserve s. Qed.

Lemma preserved_queue_restart (s : State) : preserved s (queue_restart s).
Proof. preserve s. Qed.

Lemma preserved_start (s : State) : preserved s (start s).
Proof.
  unfold start. destruct (negb (has_client s) && negb (halt s));
    [|apply preserved_refl].
  destruct (work_available (client_options s));
    [|apply preserved_new_client].
  preserve s.
Qed.

Lemma preserved_run_posted (p : Posted) (s : State) :
  preserved s (run_posted p s).
Proof.
  destruct p; simpl.
  - apply preserved_graceful_stop.
  - apply preserved_pause.
  - apply preserved_resume.
  - apply preserved_reconnect.
Qed.

Lemma preserved_restart_wait_callback (gen : Z) (e : error_code) (s : State) :
  preserved s (restart_wait_callback gen e s).
Proof.
  unfold restart_wait_callback.
  destruct (negb (is_error e) && (gen =? generation s) && negb (halt s));
    [|apply preserved_refl].
  destruct (paused s); [apply preserved_resume|].
  eapply preserved_trans; [|apply preserved_new_client].
  destruct (has_client s); [apply preserved_emit; reflexivity|apply preserved_refl].
Qed.

Lemma preserved_conn_timer_callback (gen : Z) (e : error_code) (s : State) :
  preserved s (conn_timer_callback gen e s).
Proof. preserve s. Qed.

Lemma preserved_server_poll_callback
  (gen : Z) (e : error_code) (s s' : State) :
  server_poll_callback gen e s = Done s' -> preserved s s'.
Proof.
  unfold server_poll_callback.
  destruct (negb (is_error e) && (gen =? generation s) && negb (halt s)).
  - destruct (client s) as [c|]; [|discriminate].
    destruct (negb (first_packet_received c)); intros H; injection H as <-.
    + apply preserved_new_client.
    + apply preserved_refl.
  - intros H; injection H as <-. apply preserved_refl.
Qed.

Lemma preserved_client_proto_terminate
  (is_dynamic : string -> bool) (s s' : State) :
  client_proto_terminate is_dynamic s = Done s' -> preserved s s'.
Proof.
  assert (E : forall ev s1, is_connection_timeout ev = false ->
                            preserved s1 (add_event ev s1)).
  { intros ev s1 Hev. apply preserved_emit. exact Hev. }
  assert (S : forall st s1, preserved s1 (stats_error st s1)).
  { intros st s1. apply preserved_emit. reflexivity. }
  assert (T : forall ev st, is_connection_timeout ev = false ->
                preserved s (stop (stats_error st (add_event ev s)))).
  { intros ev st Hev.
    eapply preserved_trans; [|apply preserved_stop].
    eapply preserved_trans; [|apply S].
    apply E, Hev. }
  unfold client_proto_terminate.
  destruct (negb (halt s)); [|intros H; injection H as <-; apply preserved_refl].
  destruct (dont_restart_ s);
    [intros H; injection H as <-; apply preserved_stop|].
  destruct (client s) as [c|]; [|discriminate].
  destruct (fatal c); try discriminate; cbv zeta;
    intros H; injection H as <-;
    try (apply T; reflexivity).
  - apply preserved_queue_restart.
  - destruct (is_dynamic (fatal_reason c)); [|apply T; reflexivity].
    eapply preserved_trans; [|apply preserved_stop].
    apply E. reflexivity.
  - eapply preserved_trans; [|apply preserved_queue_restart].
    eapply preserved_trans; [|apply S].
    apply E. reflexivity.
Qed.

Lemma step_preserved
  (is_dynamic : string -> bool) (l : Label) (s s' : State) :
  step is_dynamic l s = Some (Done s') -> preserved s s'.
Proof.
  destruct l; simpl; intros H.
  - injection H as <-. apply preserved_start.
  - injection H as <-. apply preserved_stop.
  - injection H as <-. apply preserved_graceful_stop.
  - injection H as <-. apply preserved_stop.
  - injection H as <-. apply preserved_pause.
  - injection H as <-. apply preserved_resume.
  - injection H as <-. apply preserved_reconnect.
  - injection H as <-. preserve s.
  - injection H as <-. preserve s.
  - injection H as <-. preserve s.
  - injection H as <-. preserve s.
  - injection H as <-. preserve s.
  - destruct (posted s) as [|p q]; [discriminate|]. injection H as <-.
    eapply preserved_trans; [|apply preserved_run_posted].
    preserve s.
  - destruct (has_pre_resolve s); [|discriminate]. injection H as <-.
    unfold pre_resolve_done. destruct (negb (halt s));
      [apply preserved_new_client|apply preserved_refl].
  - destruct (nth_error (waits (get_timer id s)) i) as [w|] eqn:Hw;
      [|discriminate].
    destruct (deliverable w e (now s)); [|discriminate].
    injection H as H.
    match type of H with
    | timer_callback _ _ _ ?x = _ => apply (preserved_trans s x)
    end.
    + unfold preserved. split; [|destruct id; simpl; auto].
      intros Hinv Hnone. destruct (Hinv Hnone) as [Hg Hz].
      split; [exact Hg|]. destruct id; simpl; auto.
      simpl in Hw. rewrite Hz in Hw. destruct i; discriminate.
    + destruct id; simpl in H.
      * eapply preserved_server_poll_callback; exact H.
      * injection H as <-. apply preserved_restart_wait_callback.
      * injection H as <-. apply preserved_conn_timer_callback.
  - destruct (has_client s); [|discriminate]. injection H as <-. preserve s.
  - destruct (has_client s); [|discriminate]. injection H as H.
    eapply preserved_client_proto_terminate; exact H.
  - destruct (has_client s); [|discriminate]. injection H as <-.
    unfold preserved. split; [|simpl; auto]. intros _ Hn. discriminate.
  - destruct (0 <=? d); [|discriminate]. injection H as <-. preserve s.
Qed.

Lemma run_preserved (is_dynamic : string -> bool) (ls : list Label) :
  forall s s', run is_dynamic ls s = Some s' -> preserved s s'.
Proof.
  induction ls as [|l ls IH]; simpl; intros s s' H.
  - injection H as <-. apply preserved_refl.
  - destruct (step is_dynamic l s) as [[s1| |]|] eqn:E; try discriminate.
    eapply preserved_trans; [eapply step_preserved; exact E|apply IH, H].
Qed.

Lemma session_invariant_init (o : ClientOptions) (t0 : Z) :
  session_invariant (init o t0).
Proof. intros _. split; reflexivity. Qed.

(** C10.  In every state the event loop reaches from the constructor: if the
    generation is at least 1 there is a session; whenever a server-poll
    wait is outstanding there is a session, so the callback that passes its
    fence queries a session that exists; and no delivery of a server-poll
    wait calls through a null client pointer. *)
Theorem server_poll_session_exists
  (is_dynamic : string -> bool) (o : ClientOptions) (t0 : Z)
  (ls : list Label) (s : State) :
  run is_dynamic ls (init o t0) = Some s ->
  (1 <= generation s -> exists c, client s = Some c) /\
  (forall i w e,
     nth_error (waits (server_poll_timer s)) i = Some w ->
     is_error e = false -> w_gen w = generation s -> halt s = false ->
     exists c, client s = Some c) /\
  (forall i e, step is_dynamic (L_timer ServerPoll i e) s <> Some NullDeref).
Proof.
  intros Hrun.
  destruct (run_preserved is_dynamic ls _ _ Hrun) as (Hinv & _).
  specialize (Hinv (session_invariant_init o t0)).
  assert (Hw : forall i w, nth_error (waits (server_poll_timer s)) i = Some w ->
                           exists c, client s = Some c).
  { intros i w Hn. destruct (client s) as [c|] eqn:Hc; [exists c; reflexivity|].
    destruct (Hinv Hc) as [_ Hz]. rewrite Hz in Hn. destruct i; discriminate. }
  split; [|split].
  - intros Hg. destruct (client s) as [c|] eqn:Hc; [exists c; reflexivity|].
    destruct (Hinv Hc) as [Hz _]. lia.
  - intros i w e Hn _ _ _. exact (Hw i w Hn).
  - intros i e. simpl.
    destruct (nth_error (waits (server_poll_timer s)) i) as [w|] eqn:Hn;
      [|discriminate].
    destruct (deliverable w e (now s)); [|discriminate].
    destruct (Hw i w Hn) as [c Hc].
    unfold server_poll_callback. simpl. rewrite Hc.
    destruct (negb (is_error e) && (w_gen w =? generation s) && negb (halt s));
      [destruct (negb (first_packet_received c))|]; discriminate.
Qed.

(** C4.  After [dont_restart] has been called, whatever the event loop has
    run since: a session-terminated callback processed while not halted is
    exactly [stop], for every classification the session reports (the
    classification is not even read); the controller is halted, only the
    calls of [stop] are made, and every restart wait is aborted. *)
Theorem dont_restart_forces_stop
  (is_dynamic : string -> bool) (s0 : State) (ls : list Label) (s : State) :
  run is_dynamic ls (dont_restart s0) = Some s ->
  halt s = false ->
  client_proto_terminate is_dynamic s = Done (stop s) /\
  halt (stop s) = true /\
  trace (stop s) = trace s ++ stop_effects s /\
  all_aborted (restart_wait_timer (stop s)).
Proof.
  intros Hrun Hh.
  destruct (run_preserved is_dynamic ls _ _ Hrun) as (_ & Hd & _).
  specialize (Hd eq_refl).
  unfold client_proto_terminate. rewrite Hh, Hd. simpl.
  split; [reflexivity|]. split; [apply halt_stop|].
  split; [apply trace_stop, Hh|].
  apply (stop_aborts_timers s RestartWait Hh).
Qed.

(** C2, as the code has it.  The server-poll and restart-wait callbacks do
    nothing when the generation they were bound to differs from the current
    one, or when the controller is halted.  The connection-timeout callback
    does nothing when the controller is halted or the wait was aborted; it
    never looks at the generation it was bound to. *)
Theorem timer_callback_fence (s : State) (gen : Z) (e : error_code) :
  gen <> generation s \/ halt s = true ->
  server_poll_callback gen e s = Done s /\
  restart_wait_callback gen e s = s /\
  (halt s = true -> conn_timer_callback gen e s = s) /\
  (is_error e = true -> conn_timer_callback gen e s = s) /\
  conn_timer_callback gen e s = conn_timer_callback (generation s) e s.
Proof.
  intros H.
  assert (F : negb (is_error e) && (gen =? generation s) && negb (halt s) = false).
  { destruct H as [H|H].
    - apply Z.eqb_neq in H. rewrite H, andb_false_r. reflexivity.
    - rewrite H, andb_false_r. reflexivity. }
  unfold server_poll_callback, restart_wait_callback, conn_timer_callback.
  rewrite F. repeat split.
  - intros Hh. rewrite Hh, andb_false_r. reflexivity.
  - intros He. rewrite He. reflexivity.
Qed.


(** ** The theorems on concrete runs *)

Lemma client_proto_terminate_classification_witness :
  halt (terminated_with Error.CLIENT_HALT "bye") = false /\
  dont_restart_ (terminated_with Error.CLIENT_HALT "bye") = false /\
  (exists s',
     client_proto_terminate crv1_is_dynamic
       (terminated_with Error.CLIENT_HALT "bye") = Done s' /\
     halt s' = true) /\
  (exists s',
     client_proto_terminate crv1_is_dynamic
       (terminated_with Error.CLIENT_RESTART "again") = Done s' /\
     halt s' = false) /\
  client_proto_terminate crv1_is_dynamic
    (terminated_with Error.N_PAUSE "") = Unhandled.
Proof.
  split; [reflexivity|]. split; [reflexivity|]. split; [|split].
  - destruct (client_proto_terminate_classification crv1_is_dynamic
                (terminated_with Error.CLIENT_HALT "bye")
                (session_reporting Error.CLIENT_HALT "bye")
                eq_refl eq_refl eq_refl) as (_ & H & _).
    destruct (H eq_refl eq_refl) as (s' & ev & E & _ & _ & _ & _ & _ & Hh & _).
    exists s'. split; assumption.
  - destruct (client_proto_terminate_classification crv1_is_dynamic
                (terminated_with Error.CLIENT_RESTART "again")
                (session_reporting Error.CLIENT_RESTART "again")
                eq_refl eq_refl eq_refl) as (H & _).
    destruct (H eq_refl) as (s' & E & _ & Hh & _).
    exists s'. split; assumption.
  - apply (client_proto_terminate_classification crv1_is_dynamic
             (terminated_with Error.N_PAUSE "")
             (session_reporting Error.N_PAUSE "")
             eq_refl eq_refl eq_refl).
    reflexivity.
Defined.

(** C2 as stated fails for the connection-timeout callback: in the second
    attempt (generation 2) the wait armed during the first attempt (bound
    to generation 1) is delivered, and the controller records the stat,
    emits ConnectionTimeout and stops. *)
Lemma conn_timer_callback_ignores_generation :
  run crv1_is_dynamic second_attempt_run (init example_options 0) =
    Some second_attempt /\
  generation second_attempt = 2 /\ halt second_attempt = false /\
  nth_error (waits (conn_timer second_attempt)) 0 =
    Some {| w_gen := 1; w_expiry := 5; w_aborted := false |} /\
  1 <> generation second_attempt /\
  conn_timer_callback 1 success second_attempt <> second_attempt /\
  (exists s',
     step crv1_is_dynamic (L_timer ConnTimer 0%nat success) second_attempt =
       Some (Done s') /\
     halt s' = true /\
     trace s' =
       trace second_attempt ++
       [StatError Error.CONNECTION_TIMEOUT; EvAdd ClientEvent.ConnectionTimeout;
        ClientStop false; ClosePersistent; EvAdd ClientEvent.Disconnected]).
Proof.
  split; [vm_compute; reflexivity|].
  split; [reflexivity|]. split; [reflexivity|]. split; [reflexivity|].
  split; [discriminate|]. split.
  - intros H. apply (f_equal halt) in H. vm_compute in H. discriminate.
  - eexists. split; [vm_compute; reflexivity|].
    split; vm_compute; reflexivity.
Defined.

Lemma timer_callback_fence_witness :
  1 <> generation second_attempt /\
  server_poll_callback 1 success second_attempt = Done second_attempt /\
  restart_wait_callback 1 success second_attempt = second_attempt.
Proof.
  assert (H : 1 <> generation second_attempt) by (vm_compute; discriminate).
  split; [exact H|].
  destruct (timer_callback_fence second_attempt 1 success (or_introl H))
    as (A & B & _).
  split; [exact A|exact B].
Defined.

Lemma stop_is_final_witness :
  run crv1_is_dynamic after_stop_run (stop first_attempt) = Some long_after_stop /\
  halt long_after_stop = true /\
  trace long_after_stop = trace (stop first_attempt).
Proof.
  assert (H : run crv1_is_dynamic after_stop_run (stop first_attempt) =
              Some long_after_stop) by (vm_compute; reflexivity).
  split; [exact H|].
  destruct (stop_is_final crv1_is_dynamic first_attempt after_stop_run
              long_after_stop H) as (A & B & _).
  split; [exact A|exact B].
Defined.

Lemma dont_restart_forces_stop_witness :
  run crv1_is_dynamic restart_requested_run
    (dont_restart (init example_options 0)) = Some restart_requested /\
  halt restart_requested = false /\
  option_map fatal (client restart_requested) = Some Error.CLIENT_RESTART /\
  client_proto_terminate crv1_is_dynamic restart_requested =
    Done (stop restart_requested) /\
  halt (stop restart_requested) = true.
Proof.
  assert (H : run crv1_is_dynamic restart_requested_run
                (dont_restart (init example_options 0)) =
              Some restart_requested) by (vm_compute; reflexivity).
  split; [exact H|]. split; [reflexivity|]. split; [reflexivity|].
  destruct (dont_restart_forces_stop crv1_is_dynamic
              (init example_options 0) restart_requested_run
              restart_requested H eq_refl) as (A & B & _).
  split; [exact A|exact B].
Defined.




Lemma dynamic_challenge_stops_witness :
  crv1_is_dynamic "CRV1:R,E:Om01u7:dXNlcg==:Enter code" = true /\
  exists s',
    client_proto_terminate crv1_is_dynamic
      (terminated_with Error.AUTH_FAILED "CRV1:R,E:Om01u7:dXNlcg==:Enter code")
      = Done s' /\
    halt s' = true /\
    count (is_event is_dynamic_challenge) (trace s') = 1%nat.
Proof.
  split; [reflexivity|].
  destruct (dynamic_challenge_stops crv1_is_dynamic
              (terminated_with Error.AUTH_FAILED "CRV1:R,E:Om01u7:dXNlcg==:Enter code")
              (session_reporting Error.AUTH_FAILED "CRV1:R,E:Om01u7:dXNlcg==:Enter code")
              eq_refl eq_refl eq_refl eq_refl eq_refl)
    as (s' & E & Hh & _ & Hc & _).
  exists s'. split; [exact E|]. split; [exact Hh|].
  rewrite Hc. reflexivity.
Defined.

Lemma thread_safe_stop_is_graceful_witness :
  halt first_attempt = false /\
  posted (thread_safe_stop first_attempt) = [P_graceful_stop] /\
  trace (graceful_stop first_attempt) =
    trace first_attempt ++
    [ClientExitNotify; ClientStop false; ClosePersistent;
     EvAdd ClientEvent.Disconnected].
Proof.
  assert (Hh : halt first_attempt = false) by reflexivity.
  split; [exact Hh|].
  destruct (thread_safe_stop_is_graceful crv1_is_dynamic first_attempt Hh)
    as (_ & A & _ & _ & B & _).
  split; [rewrite A; reflexivity|].
  rewrite (B first_attempt Hh eq_refl). reflexivity.
Defined.

Lemma server_poll_session_exists_witness :
  run crv1_is_dynamic second_attempt_run (init example_options 0) =
    Some second_attempt /\
  (exists c, client second_attempt = Some c) /\
  step crv1_is_dynamic (L_timer ServerPoll 0%nat success) second_attempt <>
    Some NullDeref.
Proof.
  assert (H : run crv1_is_dynamic second_attempt_run (init example_options 0) =
              Some second_attempt) by (vm_compute; reflexivity).
  split; [exact H|].
  destruct (server_poll_session_exists crv1_is_dynamic example_options 0
              second_attempt_run second_attempt H) as (A & _ & C).
  split; [apply A; vm_compute; discriminate|apply C].
Defined.

(** ** Induction over the entries of the event loop *)

Section StepInvariant.

Variable is_dynamic : string -> bool.
Variable Inv : State -> Prop.

Hypothesis Inv_new_client : forall s, halt s = false -> Inv s -> Inv (new_client s).
Hypothesis Inv_stop : forall s, Inv s -> Inv (stop s).
Hypothesis Inv_pause : forall s, Inv s -> Inv (pause s).
Hypothesis Inv_resume : forall s, Inv s -> Inv (resume s).
Hypothesis Inv_reconnect : forall n s, Inv s -> Inv (reconnect n s).
Hypothesis Inv_queue_restart :
  forall s, halt s = false -> Inv s -> Inv (queue_restart s).
Hypothesis Inv_connected : forall s, Inv s -> Inv (client_proto_connected s).
Hypothesis Inv_dont_restart : forall s, Inv s -> Inv (dont_restart s).
Hypothesis Inv_posted : forall q s, Inv s -> Inv (set_posted q s).
Hypothesis Inv_now : forall t s, Inv s -> Inv (set_now t s).
Hypothesis Inv_session :
  forall c s, has_client s = true -> Inv s -> Inv (set_client (Some c) s).
Hypothesis Inv_emit : forall e s, incidental e = true -> Inv s -> Inv (emit e s).
Hypothesis Inv_resolve :
  forall s, has_client s = false -> halt s = false -> Inv s ->
    Inv (emit PreResStart
           (set_pre_resolve (Some {| pr_cancelled := false |})
              (add_event ClientEvent.Resolve s))).
Hypothesis Inv_remove :
  forall id i s, id <> ConnTimer -> Inv s -> Inv (remove_wait id i s).
Hypothesis Inv_conn_timer :
  forall i w e s,
    nth_error (waits (conn_timer s)) i = Some w ->
    deliverable w e (now s) = true ->
    Inv s -> Inv (conn_timer_callback (w_gen w) e (remove_wait ConnTimer i s)).

Lemma graceful_stop_invariant (s : State) : Inv s -> Inv (graceful_stop s).
Proof.
  intros H. unfold graceful_stop.
  destruct (negb (halt s) && has_client s); [|apply Inv_stop, H].
  apply Inv_stop, Inv_emit; [reflexivity|exact H].
Qed.

Lemma run_posted_invariant (p : Posted) (s : State) :
  Inv s -> Inv (run_posted p s).
Proof.
  intros H. destruct p; simpl.
  - apply graceful_stop_invariant, H.
  - apply Inv_pause, H.
  - apply Inv_resume, H.
  - apply Inv_reconnect, H.
Qed.

Lemma restart_wait_callback_invariant (gen : Z) (e : error_code) (s : State) :
  Inv s -> Inv (restart_wait_callback gen e s).
Proof.
  intros H. unfold restart_wait_callback.
  destruct (negb (is_error e) && (gen =? generation s) && negb (halt s)) eqn:F;
    [|exact H].
  apply andb_prop in F. destruct F as [_ F]. apply negb_true_iff in F.
  destruct (paused s); [apply Inv_resume, H|].
  destruct (has_client s).
  - apply Inv_new_client; [exact F|]. apply Inv_emit; [reflexivity|exact H].
  - apply Inv_new_client; [exact F|exact H].
Qed.

Lemma server_poll_callback_invariant
  (gen : Z) (e : error_code) (s s' : State) :
  server_poll_callback gen e s = Done s' -> Inv s -> Inv s'.
Proof.
  unfold server_poll_callback. intros E H.
  destruct (negb (is_error e) && (gen =? generation s) && negb (halt s)) eqn:F.
  - apply andb_prop in F. destruct F as [_ F]. apply negb_true_iff in F.
    destruct (client s) as [c|]; [|discriminate].
    destruct (negb (first_packet_received c)); injection E as <-.
    + apply Inv_new_client; assumption.
    + exact H.
  - injection E as <-. exact H.
Qed.

Lemma client_proto_terminate_invariant (s s' : State) :
  client_proto_terminate is_dynamic s = Done s' -> Inv s -> Inv s'.
Proof.
  intros E H. unfold client_proto_terminate in E.
  destruct (negb (halt s)) eqn:Hh; [|injection E as <-; exact H].
  apply negb_true_iff in Hh.
  destruct (dont_restart_ s); [injection E as <-; apply Inv_stop, H|].
  destruct (client s) as [c|]; [|discriminate].
  assert (T : forall ev st,
            incidental (EvAdd ev) = true -> incidental (StatError st) = true ->
            Inv (stop (stats_error st (add_event ev s)))).
  { intros ev st H1 H2. apply Inv_stop, Inv_emit; [exact H2|].
    apply Inv_emit; [exact H1|exact H]. }
  destruct (fatal c); try discriminate; cbv zeta in E; injection E as <-;
    try (apply T; reflexivity).
  - apply Inv_queue_restart; assumption.
  - destruct (is_dynamic (fatal_reason c)); [|apply T; reflexivity].
    apply Inv_stop, Inv_emit; [reflexivity|exact H].
  - apply Inv_queue_restart; [exact Hh|].
    apply Inv_emit; [reflexivity|]. apply Inv_emit; [reflexivity|exact H].
Qed.

Lemma step_invariant (l : Label) (s s' : State) :
  step is_dynamic l s = Some (Done s') -> Inv s -> Inv s'.
Proof.
  destruct l; simpl; intros E H.
  - injection E as <-. unfold start.
    destruct (negb (has_client s) && negb (halt s)) eqn:F; [|exact H].
    apply andb_prop in F. destruct F as [F1 F2].
    apply negb_true_iff in F1. apply negb_true_iff in F2.
    destruct (work_available (client_options s)).
    + apply Inv_resolve; assumption.
    + apply Inv_new_client; assumption.
  - injection E as <-. apply Inv_stop, H.
  - injection E as <-. apply graceful_stop_invariant, H.
  - injection E as <-. apply Inv_stop, H.
  - injection E as <-. apply Inv_pause, H.
  - injection E as <-. apply Inv_resume, H.
  - injection E as <-. apply Inv_reconnect, H.
  - injection E as <-. apply Inv_dont_restart, H.
  - injection E as <-. unfold thread_safe_stop, post.
    destruct (negb (halt s)); [apply Inv_posted, H|exact H].
  - injection E as <-. unfold thread_safe_pause, post.
    destruct (negb (halt s)); [apply Inv_posted, H|exact H].
  - injection E as <-. unfold thread_safe_resume, post.
    destruct (negb (halt s)); [apply Inv_posted, H|exact H].
  - injection E as <-. unfold thread_safe_reconnect, post.
    destruct (negb (halt s)); [apply Inv_posted, H|exact H].
  - destruct (posted s) as [|p q]; [discriminate|]. injection E as <-.
    apply run_posted_invariant, Inv_posted, H.
  - destruct (has_pre_resolve s); [|discriminate]. injection E as <-.
    unfold pre_resolve_done. destruct (negb (halt s)) eqn:F; [|exact H].
    apply negb_true_iff in F. apply Inv_new_client; assumption.
  - destruct (nth_error (waits (get_timer id s)) i) as [w|] eqn:Hw;
      [|discriminate].
    destruct (deliverable w e (now s)) eqn:Hd; [|discriminate].
    injection E as E. fold (remove_wait id i s) in E.
    destruct id; simpl in E.
    + apply (server_poll_callback_invariant _ _ _ _ E).
      apply Inv_remove; [discriminate|exact H].
    + injection E as <-. apply restart_wait_callback_invariant.
      apply Inv_remove; [discriminate|exact H].
    + injection E as <-. apply (Inv_conn_timer i w e s Hw Hd H).
  - destruct (has_client s); [|discriminate]. injection E as <-.
    apply Inv_connected, H.
  - destruct (has_client s); [|discriminate]. injection E as E.
    apply (client_proto_terminate_invariant _ _ E H).
  - destruct (has_client s) eqn:Hc; [|discriminate]. injection E as <-.
    apply Inv_session; assumption.
  - destruct (0 <=? d); [|discriminate]. injection E as <-.
    apply Inv_now, H.
Qed.

Lemma run_invariant (ls : list Label) :
  forall s s', run is_dynamic ls s = Some s' -> Inv s -> Inv s'.
Proof.
  induction ls as [|l ls IH]; simpl; intros s s' E H.
  - injection E as <-. exact H.
  - destruct (step is_dynamic l s) as [[s1| |]|] eqn:E1; try discriminate.
    apply (IH s1 s' E). apply (step_invariant l s s1 E1 H).
Qed.

End StepInvariant.

(** ** Invariants kept by every entry *)

Ltac unfold_entries :=
  unfold stop_on_signal, graceful_stop, thread_safe_stop, thread_safe_pause,
    thread_safe_resume, thread_safe_reconnect, post,
    restart_wait_callback, conn_timer_callback, remove_wait,
    pre_resolve_done, start, resume, pause, stop, reconnect, dont_restart,
    client_proto_connected, queue_restart, new_client,
    conn_timer_start, cancel_timers, cancel, expires_at, async_wait, add_event,
    stats_error, has_client, has_pre_resolve in *.

Ltac split_bools :=
  repeat match goal with
         | b : bool |- _ => destruct b
         end.

Ltac entry_cases s :=
  unfold_entries;
  destruct s;
  simpl in *; repeat (break_match; simpl in *).

Lemma count_single (p : Effect -> bool) (e : Effect) :
  count p [e] = b2n (p e).
Proof. unfold count. simpl. destruct (p e); reflexivity. Qed.

Lemma incidental_not_lifecycle (e : Effect) :
  incidental e = true ->
  is_event is_disconnected e = false /\ is_close_persistent e = false /\
  is_client_new e = false /\ is_event is_connection_timeout e = false.
Proof.
  destruct e as [ev| | | | | | | | |]; try discriminate;
    try (intros _; repeat split; reflexivity).
  destruct ev; try discriminate; intros _; repeat split; reflexivity.
Qed.

Ltac lifecycle_finish :=
  unfold lifecycle_invariant; simpl;
  let H1 := fresh "H1" in
  let H2 := fresh "H2" in
  intros [H1 H2]; rewrite ?count_app; rewrite ?H1, ?H2;
  split_bools; try discriminate; cbn; split; lia.

Lemma run_lifecycle (is_dynamic : string -> bool) (ls : list Label)
  (s s' : State) :
  run is_dynamic ls s = Some s' -> lifecycle_invariant s -> lifecycle_invariant s'.
Proof.
  apply run_invariant.
  - intros s0 Hh. entry_cases s0; lifecycle_finish.
  - intros s0. entry_cases s0; lifecycle_finish.
  - intros s0. entry_cases s0; lifecycle_finish.
  - intros s0. entry_cases s0; lifecycle_finish.
  - intros n s0. entry_cases s0; lifecycle_finish.
  - intros s0 Hh. entry_cases s0; lifecycle_finish.
  - intros s0. entry_cases s0; lifecycle_finish.
  - intros s0. entry_cases s0; lifecycle_finish.
  - intros q0 s0. entry_cases s0; lifecycle_finish.
  - intros t0 s0. entry_cases s0; lifecycle_finish.
  - intros c0 s0 Hc. entry_cases s0; lifecycle_finish.
  - intros e s0 He [H1 H2].
    destruct (incidental_not_lifecycle e He) as (A & B & _).
    unfold lifecycle_invariant. simpl.
    rewrite !count_app, !count_single, A, B, H1, H2. simpl. split; lia.
  - intros s0 Hc Hh. entry_cases s0; lifecycle_finish.
  - intros id i s0 Hid. entry_cases s0; destruct id; lifecycle_finish.
  - intros i w e s0 Hn Hd. entry_cases s0; lifecycle_finish.
Qed.

Ltac unfold_entries_but_new_client :=
  unfold stop_on_signal, graceful_stop, thread_safe_stop, thread_safe_pause,
    thread_safe_resume, thread_safe_reconnect, post,
    conn_timer_callback, remove_wait,
    pause, stop, reconnect, dont_restart,
    client_proto_connected, queue_restart,
    cancel_timers, cancel, expires_at, async_wait, add_event,
    stats_error, has_client, has_pre_resolve in *.

Ltac entry_cases_but_new_client s :=
  unfold_entries_but_new_client;
  destruct s;
  simpl in *; repeat (break_match; simpl in *).

Lemma run_work (is_dynamic : string -> bool) (ls : list Label) (s s' : State) :
  run is_dynamic ls s = Some s' -> work_invariant s -> work_invariant s'.
Proof.
  apply run_invariant; unfold work_invariant.
  - intros s0 Hh. entry_cases s0; intros; discriminate.
  - intros s0. entry_cases s0; intros; try discriminate; auto.
  - intros s0. entry_cases s0; intros; try discriminate; auto;
      split_bools; try discriminate; auto.
  - intros s0. entry_cases s0; intros; try discriminate; auto.
  - intros n s0. entry_cases s0; intros; try discriminate; auto.
  - intros s0 Hh. entry_cases s0; intros; try discriminate; auto.
  - intros s0. entry_cases s0; intros; try discriminate; auto.
  - intros s0. entry_cases s0; intros; try discriminate; auto.
  - intros q0 s0. entry_cases s0; intros; try discriminate; auto.
  - intros t0 s0. entry_cases s0; intros; try discriminate; auto.
  - intros c0 s0 Hc. entry_cases s0; intros; try discriminate; auto.
  - intros e s0 He. entry_cases s0; intros; try discriminate; auto.
  - intros s0 Hc Hh. entry_cases s0; intros; try discriminate; auto.
  - intros id i s0 Hid. entry_cases s0; destruct id; simpl; auto.
  - intros i w e s0 Hn Hd. entry_cases s0; intros; try discriminate; auto;
      split_bools; try discriminate; auto.
Qed.

Lemma incidental_not_attempt (e : Effect) :
  incidental e = true ->
  is_client_start e = false /\ is_event is_reconnecting e = false /\
  is_stat Error.N_RECONNECT e = false.
Proof.
  destruct e as [ev|x| | | | | | | |]; try discriminate;
    try (intros _; repeat split; reflexivity).
  - destruct ev; try discriminate; intros _; repeat split; reflexivity.
  - destruct x; try discriminate; intros _; repeat split; reflexivity.
Qed.

Lemma new_client_effects_counts (s : State) :
  count is_client_new (new_client_effects s) = 1%nat /\
  count is_client_start (new_client_effects s) = 1%nat /\
  count (is_event is_reconnecting) (new_client_effects s) =
    b2n (1 <? uint_incr (generation s)) /\
  count (is_stat Error.N_RECONNECT) (new_client_effects s) =
    b2n (1 <? uint_incr (generation s)).
Proof.
  unfold new_client_effects.
  destruct (has_client s), (1 <? uint_incr (generation s)), (prior_reached s);
    cbn; repeat split; reflexivity.
Qed.

Lemma attempt_new_client (s : State) :
  attempt_invariant s -> attempt_invariant (new_client s).
Proof.
  unfold attempt_invariant, sessions.
  intros (G & St & Cl & Re).
  destruct (new_client_effects_counts s) as (C1 & C2 & C3 & C4).
  rewrite trace_new_client, generation_new_client, client_new_client.
  rewrite !count_app, C1, C2, C3, C4, St.
  set (n := count is_client_new (trace s)) in *.
  assert (Hn : Z.of_nat (n + 1) = Z.of_nat n + 1) by lia.
  assert (Hm : 0 < UINT_MODULUS) by reflexivity.
  split; [|split; [|split]].
  - unfold uint_incr. rewrite G, Hn.
    rewrite Zplus_mod_idemp_l. reflexivity.
  - reflexivity.
  - split; [discriminate|lia].
  - intros Hlt. rewrite Hn in Hlt.
    assert (Hlt' : Z.of_nat n < UINT_MODULUS) by lia.
    destruct (Re Hlt') as [R1 R2]. rewrite R1, R2.
    assert (Hg : uint_incr (generation s) = Z.of_nat n + 1).
    { unfold uint_incr. rewrite G, Zplus_mod_idemp_l.
      apply Z.mod_small. lia. }
    rewrite Hg.
    destruct (1 <? Z.of_nat n + 1) eqn:Hb;
      [apply Z.ltb_lt in Hb|apply Z.ltb_ge in Hb]; simpl; split; lia.
Qed.

Ltac attempt_finish :=
  unfold attempt_invariant, sessions; simpl;
  let G := fresh "G" in
  let St := fresh "St" in
  let Cl := fresh "Cl" in
  let Re := fresh "Re" in
  intros (G & St & Cl & Re); rewrite ?count_app; cbn;
  rewrite ?Nat.add_0_r;
  (split; [exact G|split; [exact St|split; [|exact Re]]]);
  try exact Cl;
  try (split; intros; [discriminate|]).

Lemma run_attempt (is_dynamic : string -> bool) (ls : list Label) (s s' : State) :
  run is_dynamic ls s = Some s' -> attempt_invariant s -> attempt_invariant s'.
Proof.
  apply run_invariant.
  - intros s0 _. apply attempt_new_client.
  - intros s0. entry_cases s0; attempt_finish.
  - intros s0. entry_cases s0; attempt_finish.
  - intros s0 H. unfold resume.
    destruct (negb (halt s0) && paused s0); [|exact H].
    apply attempt_new_client. revert H.
    entry_cases_but_new_client s0; attempt_finish.
  - intros n s0. entry_cases s0; attempt_finish.
  - intros s0 _. entry_cases s0; attempt_finish.
  - intros s0. entry_cases s0; attempt_finish.
  - intros s0. entry_cases s0; attempt_finish.
  - intros q0 s0. entry_cases s0; attempt_finish.
  - intros t0 s0. entry_cases s0; attempt_finish.
  - intros c0 s0 Hc. entry_cases s0; try discriminate.
    unfold attempt_invariant, sessions; simpl.
    intros (G & St & Cl & Re).
    split; [exact G|]. split; [exact St|]. split; [|exact Re].
    split; [discriminate|]. intros E. apply Cl in E. rewrite E in Hc.
    discriminate.
  - intros e s0 He.
    destruct (incidental_not_lifecycle e He) as (_ & _ & A & _).
    destruct (incidental_not_attempt e He) as (B & C & D).
    unfold attempt_invariant, sessions. simpl.
    intros (G & St & Cl & Re).
    rewrite !count_app, !count_single, A, B, C, D. simpl.
    rewrite !Nat.add_0_r. auto.
  - intros s0 _ _. entry_cases s0; attempt_finish.
  - intros id i s0 Hid. entry_cases s0; destruct id; attempt_finish.
  - intros i w e s0 Hn Hd. entry_cases s0; attempt_finish.
Qed.

(** ** The timers *)

Lemma live_cancel (t : AsioTimer) : live (timer_cancel t) = 0%nat.
Proof.
  unfold live, timer_cancel. simpl.
  induction (waits t) as [|w l IH]; simpl; auto.
Qed.

Lemma live_expires_at (a : Z) (t : AsioTimer) :
  live (timer_expires_at a t) = 0%nat.
Proof. apply (live_cancel t). Qed.

Lemma live_async_wait (g : Z) (t : AsioTimer) :
  live (timer_async_wait g t) = S (live t).
Proof.
  unfold live, timer_async_wait. simpl.
  rewrite filter_app, length_app. simpl. lia.
Qed.

Lemma fenced_cancel (g : Z) (t : AsioTimer) : fenced g (timer_cancel t).
Proof.
  unfold fenced, timer_cancel. simpl.
  induction (waits t) as [|w l IH]; simpl; constructor;
    [simpl; intros H; discriminate H|exact IH].
Qed.

Lemma fenced_expires_at (g a : Z) (t : AsioTimer) :
  fenced g (timer_expires_at a t).
Proof. apply (fenced_cancel g t). Qed.

Lemma fenced_async_wait (g : Z) (t : AsioTimer) :
  fenced g t -> fenced g (timer_async_wait g t).
Proof.
  unfold fenced, timer_async_wait. simpl. intros H.
  apply Forall_app. split; [exact H|]. constructor; [reflexivity|constructor].
Qed.

Lemma fenced_live_0 (g : Z) (t : AsioTimer) :
  live t = 0%nat -> fenced g t.
Proof.
  unfold live, fenced. induction (waits t) as [|w l IH]; simpl; intros H.
  - constructor.
  - destruct (w_aborted w) eqn:E; simpl in H; [|discriminate].
    constructor; [intros; congruence|apply IH, H].
Qed.

Lemma live_remove_le (i : nat) (l : list Wait) :
  (List.length (filter (fun w => negb (w_aborted w)) (remove_nth i l)) <=
   List.length (filter (fun w => negb (w_aborted w)) l))%nat.
Proof.
  unfold remove_nth.
  rewrite <- (firstn_skipn i l) at 3.
  rewrite !filter_app, !length_app.
  apply Nat.add_le_mono_l.
  destruct (skipn i l) as [|w r] eqn:E.
  - rewrite (skipn_all2 l); [simpl; lia|].
    assert (H : List.length (skipn i l) = 0%nat) by (rewrite E; reflexivity).
    rewrite length_skipn in H. lia.
  - assert (H : skipn (S i) l = r).
    { change (S i) with (1 + i)%nat. rewrite <- skipn_skipn, E. reflexivity. }
    rewrite H. simpl. destruct (negb (w_aborted w)); simpl; lia.
Qed.

Lemma live_remove_nth (i : nat) (l : list Wait) (w : Wait) :
  nth_error l i = Some w ->
  List.length (filter (fun w => negb (w_aborted w)) l) =
  (List.length (filter (fun w => negb (w_aborted w)) (remove_nth i l)) +
   b2n (negb (w_aborted w)))%nat.
Proof.
  intros H. unfold remove_nth.
  destruct (nth_error_split l i H) as (l1 & l2 & -> & <-).
  assert (Hf : firstn (List.length l1) (l1 ++ w :: l2) = l1).
  { rewrite firstn_app, firstn_all, Nat.sub_diag. simpl. apply app_nil_r. }
  assert (Hs : skipn (S (List.length l1)) (l1 ++ w :: l2) = l2).
  { change (l1 ++ w :: l2) with (l1 ++ [w] ++ l2).
    rewrite app_assoc, skipn_app.
    replace (List.length (l1 ++ [w])) with (S (List.length l1))
      by (rewrite length_app; simpl; lia).
    rewrite Nat.sub_diag.
    rewrite (skipn_all2 (l1 ++ [w])); [reflexivity|].
    rewrite length_app. simpl. lia. }
  rewrite Hf, Hs, !filter_app, !length_app. simpl.
  destruct (negb (w_aborted w)); simpl; lia.
Qed.

Lemma fenced_remove (g : Z) (i : nat) (t : AsioTimer) :
  fenced g t ->
  fenced g {| expiry := expiry t; waits := remove_nth i (waits t) |}.
Proof.
  unfold fenced. simpl. intros H. rewrite Forall_forall in *. intros w Hin.
  apply In_remove_nth in Hin. apply H, Hin.
Qed.

Lemma waits_cancel_nil (t : AsioTimer) :
  waits t = [] -> waits (timer_cancel t) = [].
Proof. unfold timer_cancel. simpl. intros ->. reflexivity. Qed.

Lemma live_nil (t : AsioTimer) : waits t = [] -> live t = 0%nat.
Proof. unfold live. intros ->. reflexivity. Qed.

Lemma live_remove (i : nat) (t : AsioTimer) :
  (live {| expiry := expiry t; waits := remove_nth i (waits t) |} <= live t)%nat.
Proof. unfold live. simpl. apply live_remove_le. Qed.

Lemma remove_nth_nil {A : Type} (i : nat) : remove_nth i (@nil A) = [].
Proof. unfold remove_nth. destruct i; reflexivity. Qed.

Arguments timer_cancel : simpl never.
Arguments timer_expires_at : simpl never.
Arguments timer_async_wait : simpl never.
Arguments live : simpl never.
Arguments fenced : simpl never.

Ltac timer_halted F :=
  let Hh := fresh "Hh" in
  let id := fresh "id" in
  intros Hh id; try discriminate Hh;
  destruct id; simpl;
  rewrite ?live_cancel, ?live_expires_at; try reflexivity;
  try (exact (F eq_refl ServerPoll));
  try (exact (F eq_refl RestartWait));
  try (exact (F eq_refl ConnTimer)).

Ltac timer_option G :=
  let Ho := fresh "Ho" in
  intros Ho; try congruence;
  try (apply waits_cancel_nil); try (exact (G Ho)).

Ltac timer_split F G :=
  rewrite ?live_async_wait, ?live_cancel, ?live_expires_at;
  (split; [|split; [|split; [|split; [|split; [|split]]]]]);
  [ auto using fenced_cancel, fenced_expires_at, fenced_async_wait
  | auto using fenced_cancel, fenced_expires_at, fenced_async_wait
  | try lia
  | try lia
  | try lia; try reflexivity
  | timer_halted F
  | timer_option G ].

Ltac timer_finish :=
  unfold timer_invariant; simpl;
  let A := fresh "A" in
  let B := fresh "B" in
  let C := fresh "C" in
  let D := fresh "D" in
  let E := fresh "E" in
  let F := fresh "F" in
  let G := fresh "G" in
  intros (A & B & C & D & E & F & G);
  split_bools; simpl in *; try discriminate;
  timer_split F G.

Lemma timer_stop (s : State) : timer_invariant s -> timer_invariant (stop s).
Proof. entry_cases s; timer_finish. Qed.

Lemma timer_pause (s : State) : timer_invariant s -> timer_invariant (pause s).
Proof. entry_cases s; timer_finish. Qed.

Lemma timer_reconnect (n : Z) (s : State) :
  timer_invariant s -> timer_invariant (reconnect n s).
Proof. entry_cases s; timer_finish. Qed.

Lemma timer_queue_restart (s : State) :
  halt s = false -> timer_invariant s -> timer_invariant (queue_restart s).
Proof. intros Hh. entry_cases s; timer_finish. Qed.

Lemma timer_connected (s : State) :
  timer_invariant s -> timer_invariant (client_proto_connected s).
Proof. entry_cases s; timer_finish. Qed.

Lemma timer_new_client (s : State) :
  halt s = false -> timer_invariant s -> timer_invariant (new_client s).
Proof.
  intros Hh. entry_cases s; timer_finish;
    try (apply fenced_async_wait, fenced_expires_at);
    try (apply fenced_live_0, live_nil; auto; fail).
Qed.

Lemma timer_resume (s : State) :
  timer_invariant s -> timer_invariant (resume s).
Proof.
  intros H. unfold resume.
  destruct (negb (halt s) && paused s) eqn:F; [|exact H].
  apply andb_prop in F. destruct F as [F _]. apply negb_true_iff in F.
  apply timer_new_client; [exact F|].
  revert H. clear F. entry_cases_but_new_client s; timer_finish.
Qed.

Lemma timer_conn_timer_fires (gen : Z) (s : State) :
  halt s = false ->
  fenced (generation s) (server_poll_timer s) ->
  fenced (generation s) (restart_wait_timer s) ->
  (server_poll_timeout_enabled (client_options s) = false ->
   waits (server_poll_timer s) = []) ->
  timer_invariant (conn_timer_callback gen success s).
Proof.
  intros Hh A B G. assert (F := I). revert Hh A B G.
  entry_cases s; intros Hh A B G;
    unfold timer_invariant; simpl;
    split_bools; simpl in *; try discriminate;
    timer_split F G.
Qed.

Lemma timer_conn_timer_callback
  (i : nat) (w : Wait) (e : error_code) (s : State) :
  nth_error (waits (conn_timer s)) i = Some w ->
  deliverable w e (now s) = true ->
  timer_invariant s ->
  timer_invariant (conn_timer_callback (w_gen w) e (remove_wait ConnTimer i s)).
Proof.
  intros Hn Hd (A & B & C & D & E & F & G).
  assert (L := live_remove_nth i (waits (conn_timer s)) w Hn).
  fold (live (conn_timer s)) in L.
  destruct (w_aborted w) eqn:Hw.
  - assert (R : timer_invariant (remove_wait ConnTimer i s)).
    { simpl in L. unfold timer_invariant, remove_wait. simpl.
      split; [exact A|]. split; [exact B|]. split; [exact C|].
      split; [exact D|]. split.
      + unfold live in *. simpl. lia.
      + split; [|exact G]. intros Hh id. specialize (F Hh).
        destruct id; simpl; [apply (F ServerPoll)|apply (F RestartWait)|].
        specialize (F ConnTimer). simpl in F. unfold live in *. simpl. lia. }
    revert R. generalize (remove_wait ConnTimer i s). intros s1.
    entry_cases s1; timer_finish.
  - simpl in L. destruct (halt s) eqn:Hh.
    + specialize (F eq_refl ConnTimer). simpl in F. lia.
    + destruct e; [|simpl in Hd; congruence].
      apply timer_conn_timer_fires; assumption.
Qed.

Lemma run_timer (is_dynamic : string -> bool) (ls : list Label) (s s' : State) :
  run is_dynamic ls s = Some s' -> timer_invariant s -> timer_invariant s'.
Proof.
  apply run_invariant.
  - apply timer_new_client.
  - apply timer_stop.
  - apply timer_pause.
  - apply timer_resume.
  - apply timer_reconnect.
  - apply timer_queue_restart.
  - apply timer_connected.
  - intros s0. entry_cases s0; timer_finish.
  - intros q0 s0. entry_cases s0; timer_finish.
  - intros t0 s0. entry_cases s0; timer_finish.
  - intros c0 s0 Hc. entry_cases s0; timer_finish.
  - intros e s0 He. entry_cases s0; timer_finish.
  - intros s0 Hc Hh. entry_cases s0; timer_finish.
  - intros id i s0 Hid (A & B & C & D & E & F & G).
    unfold timer_invariant, remove_wait.
    destruct id; [| |congruence]; simpl.
    + split; [apply fenced_remove, A|]. split; [exact B|].
      split; [pose proof (live_remove i (server_poll_timer s0)); lia|].
      split; [exact D|]. split; [exact E|]. split.
      * intros Hh id. specialize (F Hh). destruct id; simpl;
          [|apply (F RestartWait)|apply (F ConnTimer)].
        pose proof (live_remove i (server_poll_timer s0)).
        specialize (F ServerPoll). simpl in F. lia.
      * intros Ho. rewrite (G Ho). apply remove_nth_nil.
    + split; [exact A|]. split; [apply fenced_remove, B|].
      split; [exact C|].
      split; [pose proof (live_remove i (restart_wait_timer s0)); lia|].
      split; [exact E|]. split; [|exact G].
      intros Hh id. specialize (F Hh). destruct id; simpl;
        [apply (F ServerPoll)| |apply (F ConnTimer)].
      pose proof (live_remove i (restart_wait_timer s0)).
      specialize (F RestartWait). simpl in F. lia.
  - apply timer_conn_timer_callback.
Qed.

Ltac no_timeout_split A B D :=
  (split; [exact A|split]);
  [ try (apply waits_cancel_nil); exact B
  | unfold timeout_events in *; rewrite ?count_app; cbn; lia ].

Ltac no_timeout_finish :=
  unfold no_timeout_invariant; simpl;
  let A := fresh "A" in
  let B := fresh "B" in
  let D := fresh "D" in
  intros (A & B & D);
  repeat match goal with
         | H : _ && _ = true |- _ => apply andb_prop in H; destruct H
         end;
  first [ solve [ match goal with
                  | H : (0 <? _) = true |- _ => apply Z.ltb_lt in H; lia
                  end ]
        | no_timeout_split A B D ].

Lemma run_no_timeout (is_dynamic : string -> bool) (ls : list Label)
  (s s' : State) :
  run is_dynamic ls s = Some s' ->
  no_timeout_invariant s -> no_timeout_invariant s'.
Proof.
  apply run_invariant.
  - intros s0 Hh. entry_cases s0; no_timeout_finish.
  - intros s0. entry_cases s0; no_timeout_finish.
  - intros s0. entry_cases s0; no_timeout_finish.
  - intros s0. entry_cases s0; no_timeout_finish.
  - intros n s0. entry_cases s0; no_timeout_finish.
  - intros s0 Hh. entry_cases s0; no_timeout_finish.
  - intros s0. entry_cases s0; no_timeout_finish.
  - intros s0. entry_cases s0; no_timeout_finish.
  - intros q0 s0. entry_cases s0; no_timeout_finish.
  - intros t0 s0. entry_cases s0; no_timeout_finish.
  - intros c0 s0 Hc. entry_cases s0; no_timeout_finish.
  - intros e s0 He (A & B & D).
    destruct (incidental_not_lifecycle e He) as (_ & _ & _ & C).
    unfold no_timeout_invariant, timeout_events in *. simpl.
    rewrite count_app, count_single, C, D. auto.
  - intros s0 Hc Hh. entry_cases s0; no_timeout_finish.
  - intros id i s0 Hid. entry_cases s0; destruct id; try congruence;
      no_timeout_finish.
  - intros i w e s0 Hn Hd (A & B & D). rewrite B in Hn.
    destruct i; discriminate.
Qed.

Lemma lifecycle_init (o : ClientOptions) (t0 : Z) :
  lifecycle_invariant (init o t0).
Proof. split; reflexivity. Qed.

Lemma work_init (o : ClientOptions) (t0 : Z) : work_invariant (init o t0).
Proof. intros H. discriminate. Qed.

Lemma attempt_init (o : ClientOptions) (t0 : Z) :
  attempt_invariant (init o t0).
Proof.
  unfold attempt_invariant, sessions. simpl.
  repeat split; auto.
Qed.

Lemma timer_init (o : ClientOptions) (t0 : Z) : timer_invariant (init o t0).
Proof.
  unfold timer_invariant. simpl.
  split; [constructor|]. split; [constructor|].
  split; [unfold live; simpl; lia|]. split; [unfold live; simpl; lia|].
  split; [reflexivity|]. split; [discriminate|]. reflexivity.
Qed.

(** X1.  In every state the event loop reaches from the constructor, the
    Disconnected event has been emitted once if the controller is halted
    and not at all otherwise, and the same holds of
    [close_persistent]: [stop] takes effect at most once, however often
    [stop], [graceful_stop] or the callbacks that stop are entered. *)
Theorem stop_takes_effect_once
  (is_dynamic : string -> bool) (o : ClientOptions) (t0 : Z)
  (ls : list Label) (s : State) :
  run is_dynamic ls (init o t0) = Some s ->
  count (is_event is_disconnected) (trace s) = b2n (halt s) /\
  count is_close_persistent (trace s) = b2n (halt s).
Proof.
  intros H. exact (run_lifecycle is_dynamic ls _ _ H (lifecycle_init o t0)).
Qed.

(** X2.  In every state the event loop reaches from the constructor, the
    generation is the number of sessions constructed, modulo 2^32; every
    session constructed has been started; there is a session exactly when
    one has been constructed; and while fewer than 2^32 sessions have been
    constructed, the Reconnecting events and the reconnect stats each
    number one less than the sessions (none before the first). *)
Theorem generation_counts_sessions
  (is_dynamic : string -> bool) (o : ClientOptions) (t0 : Z)
  (ls : list Label) (s : State) :
  run is_dynamic ls (init o t0) = Some s ->
  generation s = Z.of_nat (sessions s) mod UINT_MODULUS /\
  count is_client_start (trace s) = sessions s /\
  (client s = None <-> sessions s = 0%nat) /\
  (Z.of_nat (sessions s) < UINT_MODULUS ->
   count (is_event is_reconnecting) (trace s) = Nat.pred (sessions s) /\
   count (is_stat Error.N_RECONNECT) (trace s) = Nat.pred (sessions s)).
Proof.
  intros H. exact (run_attempt is_dynamic ls _ _ H (attempt_init o t0)).
Qed.

(** X3.  In every state the event loop reaches from the constructor, a wait
    of the server-poll timer or of the restart timer that has not been
    aborted is bound to the current generation, each of the two timers has
    at most one such wait, a halted controller has none on any timer, and
    the server-poll timer has no wait at all when server polling is off. *)
Theorem live_waits_are_current
  (is_dynamic : string -> bool) (o : ClientOptions) (t0 : Z)
  (ls : list Label) (s : State) :
  run is_dynamic ls (init o t0) = Some s ->
  (forall id w, id <> ConnTimer -> In w (waits (get_timer id s)) ->
                w_aborted w = false -> w_gen w = generation s) /\
  (live (server_poll_timer s) <= 1)%nat /\
  (live (restart_wait_timer s) <= 1)%nat /\
  (halt s = true -> forall id, live (get_timer id s) = 0%nat) /\
  (server_poll_timeout_enabled (client_options s) = false ->
   waits (server_poll_timer s) = []).
Proof.
  intros H.
  destruct (run_timer is_dynamic ls _ _ H (timer_init o t0))
    as (A & B & C & D & _ & F & G).
  split; [|auto].
  intros id w Hid Hin. unfold fenced in A, B. rewrite Forall_forall in A, B.
  destruct id; [apply A, Hin|apply B, Hin|congruence].
Qed.

(** X4.  In every state the event loop reaches from the constructor,
    [conn_timer_pending] is true exactly when the connection timer has a
    wait that has not been aborted, and it never has more than one. *)
Theorem conn_timer_pending_tracks_wait
  (is_dynamic : string -> bool) (o : ClientOptions) (t0 : Z)
  (ls : list Label) (s : State) :
  run is_dynamic ls (init o t0) = Some s ->
  live (conn_timer s) = b2n (conn_timer_pending s) /\
  (conn_timer_pending s = true <->
   exists w, In w (waits (conn_timer s)) /\ w_aborted w = false).
Proof.
  intros H.
  destruct (run_timer is_dynamic ls _ _ H (timer_init o t0))
    as (_ & _ & _ & _ & E & _).
  split; [exact E|].
  unfold live in E.
  split.
  - intros Hp. rewrite Hp in E. simpl in E.
    destruct (filter (fun w => negb (w_aborted w)) (waits (conn_timer s)))
      as [|w l] eqn:Hf; [discriminate|].
    assert (Hin : In w (filter (fun w => negb (w_aborted w))
                          (waits (conn_timer s)))) by (rewrite Hf; left; auto).
    apply filter_In in Hin. destruct Hin as [Hin Hw].
    exists w. split; [exact Hin|]. apply negb_true_iff in Hw. exact Hw.
  - intros (w & Hin & Hw).
    assert (Hf : In w (filter (fun w => negb (w_aborted w))
                         (waits (conn_timer s)))).
    { apply filter_In. split; [exact Hin|]. rewrite Hw. reflexivity. }
    destruct (conn_timer_pending s); [reflexivity|]. simpl in E.
    destruct (filter (fun w => negb (w_aborted w)) (waits (conn_timer s)));
      [destruct Hf|discriminate].
Qed.

(** X5.  A [conn_timeout] that is not positive disables the connection
    timeout: in every state the event loop reaches from the constructor
    the connection timer has no wait, so its callback cannot be delivered,
    and no ConnectionTimeout event has been emitted. *)
Theorem nonpositive_conn_timeout_disables
  (is_dynamic : string -> bool) (o : ClientOptions) (t0 : Z)
  (ls : list Label) (s : State) :
  opt_conn_timeout o <= 0 ->
  run is_dynamic ls (init o t0) = Some s ->
  waits (conn_timer s) = [] /\
  timeout_events (trace s) = 0%nat /\
  (forall i e, step is_dynamic (L_timer ConnTimer i e) s = None).
Proof.
  intros Ho H.
  assert (I0 : no_timeout_invariant (init o t0)).
  { unfold no_timeout_invariant. simpl. auto. }
  destruct (run_no_timeout is_dynamic ls _ _ H I0) as (_ & B & D).
  split; [exact B|]. split; [exact D|].
  intros i e. simpl. rewrite B. destruct i; reflexivity.
Qed.

(** X6.  In every state the event loop reaches from the constructor, the
    work guard that keeps the [io_service] running is held only while the
    controller is paused and not halted. *)
Theorem work_guard_only_while_paused
  (is_dynamic : string -> bool) (o : ClientOptions) (t0 : Z)
  (ls : list Label) (s : State) :
  run is_dynamic ls (init o t0) = Some s ->
  asio_work s = true -> paused s = true /\ halt s = false.
Proof.
  intros H. exact (run_work is_dynamic ls _ _ H (work_init o t0)).
Qed.

(** ** Restart, reconnect and resolution *)


Lemma nth_error_last {A : Type} (l : list A) (x : A) :
  nth_error (l ++ [x]) (List.length l) = Some x.
Proof.
  rewrite nth_error_app2 by lia. rewrite Nat.sub_diag. reflexivity.
Qed.

Lemma remove_nth_last {A : Type} (l : list A) (x : A) :
  remove_nth (List.length l) (l ++ [x]) = l.
Proof.
  unfold remove_nth.
  rewrite skipn_all2 by (rewrite length_app; simpl; lia).
  rewrite firstn_app, firstn_all, Nat.sub_diag. simpl.
  rewrite !app_nil_r. reflexivity.
Qed.

(** The newest restart wait, bound to the current generation, is delivered
    without error: not before its expiry; at or after it, the controller
    resumes if paused, and otherwise notifies the session (if any) and
    makes the next attempt. *)
Lemma restart_fires
  (is_dynamic : string -> bool) (s : State) (t : AsioTimer) (ex : Z) :
  halt s = false ->
  restart_wait_timer s =
    timer_async_wait (generation s) (timer_expires_at ex t) ->
  (now s < ex ->
   step is_dynamic
     (L_timer RestartWait (List.length (waits t)) success) s = None) /\
  (ex <= now s ->
   exists s',
     step is_dynamic
       (L_timer RestartWait (List.length (waits t)) success) s =
       Some (Done s') /\
     halt s' = false /\ paused s' = false /\
     generation s' = uint_incr (generation s) /\
     trace s' =
       trace s ++
       (if paused s then [EvAdd ClientEvent.Resume]
        else if has_client s then [ClientExitNotify] else []) ++
       new_client_effects s /\
     live (restart_wait_timer s') = 0%nat).
Proof.
  intros Hh Ht.
  assert (Hn : nth_error (waits (restart_wait_timer s))
                 (List.length (waits t)) =
               Some {| w_gen := generation s; w_expiry := ex;
                       w_aborted := false |}).
  { rewrite Ht. unfold timer_async_wait, timer_expires_at. simpl.
    rewrite <- (length_map abort (waits t)). apply nth_error_last. }
  assert (Hr : remove_nth (List.length (waits t))
                 (waits (restart_wait_timer s)) = map abort (waits t)).
  { rewrite Ht. unfold timer_async_wait, timer_expires_at. simpl.
    rewrite <- (length_map abort (waits t)). apply remove_nth_last. }
  split.
  - intros Hlt. simpl. rewrite Hn. simpl.
    apply Z.leb_gt in Hlt. rewrite Hlt. reflexivity.
  - intros Hle. simpl. rewrite Hn. simpl.
    apply Z.leb_le in Hle. rewrite Hle. rewrite Hr.
    eexists. split; [reflexivity|].
    assert (Hlive : forall s0, live (restart_wait_timer (new_client s0)) = 0%nat).
    { intros s0. unfold new_client, conn_timer_start, cancel, has_client.
      simpl. repeat (break_match; simpl); apply live_cancel. }
    Opaque new_client.
    unfold restart_wait_callback. simpl. rewrite Z.eqb_refl, Hh. simpl.
    destruct (paused s) eqn:Hp.
    + unfold resume. simpl. rewrite Hh, Hp. simpl.
      rewrite halt_new_client, paused_new_client, generation_new_client,
        trace_new_client. simpl.
      split; [exact Hh|]. split; [reflexivity|]. split; [reflexivity|].
      split; [rewrite <- app_assoc; reflexivity|apply Hlive].
    + unfold has_client at 1 2 3 4 5. simpl.
      destruct (client s) as [c|] eqn:Hc; simpl;
        rewrite halt_new_client, paused_new_client, generation_new_client,
          trace_new_client; simpl;
        (split; [exact Hh|]); (split; [exact Hp|]); (split; [reflexivity|]);
        (split; [|apply Hlive]);
        unfold new_client_effects, has_client, prior_reached; simpl;
        rewrite Hc; rewrite <- ?app_assoc; reflexivity.
    Transparent new_client.
Qed.

(** X7.  A session that terminates without a fatal error, on a controller
    that is running, not paused and free to restart: the restart wait
    cannot be delivered before 2 seconds have passed; delivered after
    that, it sends the exit notification to the old session and makes
    exactly one new attempt (one session constructed, the generation
    incremented once). *)
Theorem no_fault_restart
  (is_dynamic : string -> bool) (s : State) (c : Session) (d : Z) :
  halt s = false -> dont_restart_ s = false -> paused s = false ->
  client s = Some c -> fatal c = Error.UNDEF -> 0 <= d ->
  let ls := [L_client_proto_terminate; L_tick d;
             L_timer RestartWait
               (List.length (waits (restart_wait_timer s))) success] in
  (d < 2 -> run is_dynamic ls s = None) /\
  (2 <= d ->
   exists s',
     run is_dynamic ls s = Some s' /\
     halt s' = false /\
     generation s' = uint_incr (generation s) /\
     sessions s' = S (sessions s) /\
     trace s' = trace s ++ ClientExitNotify :: new_client_effects s /\
     live (restart_wait_timer s') = 0%nat).
Proof.
  intros Hh Hd Hp Hc Hf Hd0. cbv zeta.
  set (s2 := set_now (now s + d) (queue_restart s)).
  assert (E2 : run is_dynamic
                 [L_client_proto_terminate; L_tick d;
                  L_timer RestartWait
                    (List.length (waits (restart_wait_timer s))) success] s =
               match step is_dynamic
                       (L_timer RestartWait
                          (List.length (waits (restart_wait_timer s))) success)
                       s2 with
               | Some (Done s') => Some s'
               | _ => None
               end).
  { unfold run. simpl step at 1. unfold has_client. rewrite Hc.
    unfold client_proto_terminate. rewrite Hh, Hd, Hc, Hf. simpl negb.
    cbv iota. simpl step at 1.
    apply Z.leb_le in Hd0. rewrite Hd0. fold s2.
    destruct (step is_dynamic _ s2) as [[s'| |]|]; reflexivity. }
  assert (H2 : halt s2 = false) by exact Hh.
  assert (T2 : restart_wait_timer s2 =
               timer_async_wait (generation s2)
                 (timer_expires_at (now s + 2) (restart_wait_timer s)))
    by reflexivity.
  destruct (restart_fires is_dynamic s2 _ _ H2 T2) as [A B].
  rewrite E2. split.
  - intros Hlt. rewrite A; [reflexivity|]. simpl. lia.
  - intros Hle. destruct B as (s' & E & B1 & _ & B3 & B4 & B5);
      [simpl; lia|].
    exists s'. rewrite E. split; [reflexivity|].
    assert (Hcl : has_client s2 = true) by (unfold has_client; simpl; rewrite Hc; reflexivity).
    assert (Hps : paused s2 = false) by exact Hp.
    rewrite Hps, Hcl in B4.
    assert (Hne : new_client_effects s2 = new_client_effects s) by reflexivity.
    rewrite Hne in B4. simpl in B4.
    split; [exact B1|]. split; [exact B3|]. split; [|split; [exact B4|exact B5]].
    unfold sessions. rewrite B4.
    change (trace s2) with (trace s).
    rewrite count_app.
    change (ClientExitNotify :: new_client_effects s)
      with ([ClientExitNotify] ++ new_client_effects s).
    rewrite count_app.
    destruct (new_client_effects_counts s) as (C1 & _). rewrite C1.
    cbn. lia.
Qed.

(** X8.  [reconnect] on a running controller emits nothing, aborts the
    server-poll waits and arms the restart timer for the requested delay,
    a negative delay counting as 0.  The wait cannot be delivered before
    the delay has passed; delivered after it, it ends a pause through
    [resume], and otherwise notifies the session (if any) and makes the
    next attempt: in both cases exactly one session is constructed. *)
Theorem reconnect_restarts
  (is_dynamic : string -> bool) (s : State) (n d : Z) :
  halt s = false -> 0 <= d ->
  let ls := [L_reconnect n; L_tick d;
             L_timer RestartWait
               (List.length (waits (restart_wait_timer s))) success] in
  restart_armed (Z.max 0 n) s (reconnect n s) /\
  live (server_poll_timer (reconnect n s)) = 0%nat /\
  trace (reconnect n s) = trace s /\
  (d < Z.max 0 n -> run is_dynamic ls s = None) /\
  (Z.max 0 n <= d ->
   exists s',
     run is_dynamic ls s = Some s' /\
     halt s' = false /\ paused s' = false /\
     generation s' = uint_incr (generation s) /\
     sessions s' = S (sessions s) /\
     trace s' =
       trace s ++
       (if paused s then [EvAdd ClientEvent.Resume]
        else if has_client s then [ClientExitNotify] else []) ++
       new_client_effects s).
Proof.
  intros Hh Hd0. cbv zeta.
  assert (Hmax : (if n <? 0 then 0 else n) = Z.max 0 n).
  { destruct (n <? 0) eqn:E; [apply Z.ltb_lt in E|apply Z.ltb_ge in E]; lia. }
  assert (Hrec : reconnect n s =
                 async_wait RestartWait (generation s)
                   (expires_at RestartWait (now s + Z.max 0 n)
                      (cancel ServerPoll s))).
  { unfold reconnect. rewrite Hh. simpl. rewrite Hmax. reflexivity. }
  split; [rewrite Hrec; reflexivity|].
  split; [rewrite Hrec; simpl; apply live_cancel|].
  split; [rewrite Hrec; reflexivity|].
  set (s2 := set_now (now (reconnect n s) + d) (reconnect n s)).
  assert (E2 : run is_dynamic
                 [L_reconnect n; L_tick d;
                  L_timer RestartWait
                    (List.length (waits (restart_wait_timer s))) success] s =
               match step is_dynamic
                       (L_timer RestartWait
                          (List.length (waits (restart_wait_timer s))) success)
                       s2 with
               | Some (Done s') => Some s'
               | _ => None
               end).
  { unfold run. simpl step at 1. simpl step at 1.
    apply Z.leb_le in Hd0. rewrite Hd0. fold s2.
    destruct (step is_dynamic _ s2) as [[s'| |]|]; reflexivity. }
  assert (H2 : halt s2 = false) by (unfold s2; rewrite Hrec; exact Hh).
  assert (T2 : restart_wait_timer s2 =
               timer_async_wait (generation s2)
                 (timer_expires_at (now s + Z.max 0 n) (restart_wait_timer s)))
    by (unfold s2; rewrite Hrec; reflexivity).
  assert (N2 : now s2 = now s + d) by (unfold s2; rewrite Hrec; reflexivity).
  destruct (restart_fires is_dynamic s2 _ _ H2 T2) as [A B].
  rewrite E2. split.
  - intros Hlt. rewrite A; [reflexivity|]. rewrite N2. lia.
  - intros Hle. destruct B as (s' & E & B1 & B2 & B3 & B4 & _);
      [rewrite N2; lia|].
    exists s'. rewrite E. split; [reflexivity|].
    assert (F2 : paused s2 = paused s /\ has_client s2 = has_client s /\
                 new_client_effects s2 = new_client_effects s /\
                 trace s2 = trace s /\ generation s2 = generation s)
      by (unfold s2; rewrite Hrec; repeat split; reflexivity).
    destruct F2 as (F21 & F22 & F23 & F24 & F25).
    rewrite F21, F22, F23, F24 in B4. rewrite F25 in B3.
    split; [exact B1|]. split; [exact B2|]. split; [exact B3|].
    split; [|exact B4].
    unfold sessions. rewrite B4, !count_app.
    destruct (new_client_effects_counts s) as (C1 & _). rewrite C1.
    destruct (paused s); [|destruct (has_client s)]; cbn; lia.
Qed.

(** X9.  [start] on a running controller without a session, when the
    remote list needs resolving: it emits Resolve and starts the
    pre-resolver without constructing a session.  If the resolver then
    completes, the first attempt is made; if [stop] comes first, the
    resolver is cancelled and its late completion constructs nothing. *)
Theorem resolution_before_first_attempt
  (is_dynamic : string -> bool) (s : State) :
  halt s = false -> client s = None ->
  work_available (client_options s) = true ->
  trace (start s) = trace s ++ [EvAdd ClientEvent.Resolve; PreResStart] /\
  client (start s) = None /\ generation (start s) = generation s /\
  run is_dynamic [L_start; L_pre_resolve_done] s = Some (new_client (start s)) /\
  sessions (new_client (start s)) = S (sessions s) /\
  (exists s',
     run is_dynamic [L_start; L_stop; L_pre_resolve_done] s = Some s' /\
     halt s' = true /\ client s' = None /\ sessions s' = sessions s /\
     trace s' =
       trace s ++
       [EvAdd ClientEvent.Resolve; PreResStart; PreResCancel; ClosePersistent;
        EvAdd ClientEvent.Disconnected]).
Proof.
  intros Hh Hc Hw.
  assert (E : start s =
              emit PreResStart
                (set_pre_resolve (Some {| pr_cancelled := false |})
                   (add_event ClientEvent.Resolve s))).
  { unfold start, has_client. rewrite Hc, Hh, Hw. reflexivity. }
  split; [rewrite E; simpl; rewrite <- app_assoc; reflexivity|].
  split; [rewrite E; exact Hc|]. split; [rewrite E; reflexivity|].
  split.
  { simpl. rewrite E. simpl. unfold pre_resolve_done. simpl. rewrite Hh.
    reflexivity. }
  split.
  { unfold sessions. rewrite trace_new_client, count_app.
    destruct (new_client_effects_counts (start s)) as (C1 & _).
    rewrite C1, E. simpl. rewrite <- app_assoc, count_app. cbn. lia. }
  assert (Hs : halt (start s) = false) by (rewrite E; exact Hh).
  assert (Hpr : has_pre_resolve (stop (start s)) = true).
  { unfold stop. rewrite Hs. rewrite E. simpl.
    unfold has_client. simpl. rewrite Hc. reflexivity. }
  assert (Hcl : client (stop (start s)) = None).
  { unfold stop. rewrite Hs. rewrite E. simpl.
    unfold has_client. simpl. rewrite Hc. exact Hc. }
  assert (Htr : trace (stop (start s)) =
                trace s ++
                [EvAdd ClientEvent.Resolve; PreResStart; PreResCancel;
                 ClosePersistent; EvAdd ClientEvent.Disconnected]).
  { rewrite trace_stop by exact Hs. unfold stop_effects. rewrite E.
    unfold has_client, has_pre_resolve. simpl. rewrite Hc. simpl.
    rewrite <- !app_assoc. reflexivity. }
  exists (stop (start s)). split.
  { unfold run, step. rewrite Hpr. unfold pre_resolve_done.
    rewrite halt_stop. reflexivity. }
  split; [apply halt_stop|]. split; [exact Hcl|]. split; [|exact Htr].
  unfold sessions. rewrite Htr, count_app. cbn. lia.
Qed.

(** X10.  [start] does nothing once there is a session or the controller
    is halted, so with no resolution needed a second [start] changes
    nothing; while a resolution is outstanding (still no session) a second
    [start] begins another one and emits Resolve again. *)
Theorem start_once (s : State) :
  (has_client s = true \/ halt s = true -> start s = s) /\
  (work_available (client_options s) = false -> start (start s) = start s) /\
  (work_available (client_options s) = true -> halt s = false ->
   client s = None ->
   trace (start (start s)) =
     trace s ++
     [EvAdd ClientEvent.Resolve; PreResStart;
      EvAdd ClientEvent.Resolve; PreResStart]).
Proof.
  assert (A : has_client s = true \/ halt s = true -> start s = s).
  { intros [H|H]; unfold start; rewrite H; simpl; rewrite ?andb_false_r;
      reflexivity. }
  split; [exact A|]. split.
  - intros Hw.
    destruct (negb (has_client s) && negb (halt s)) eqn:F.
    + assert (E : start s = new_client s)
        by (unfold start; rewrite F, Hw; reflexivity).
      rewrite E. unfold start, has_client.
      rewrite client_new_client. reflexivity.
    + assert (E : start s = s) by (unfold start; rewrite F; reflexivity).
      rewrite !E. reflexivity.
  - intros Hw Hh Hc. unfold start, has_client. simpl.
    rewrite Hc, Hh, Hw. simpl. rewrite Hc, Hh, Hw. simpl.
    rewrite <- !app_assoc. reflexivity.
Qed.

(** X11.  On a running controller whose [io_service] queue is empty, a
    thread-safe call followed by the queue running it is the direct call:
    [pause], [resume] and [reconnect] for their variants, and
    [graceful_stop] for [thread_safe_stop].  On a halted controller the
    thread-safe calls post nothing. *)
Theorem thread_safe_calls_are_posted
  (is_dynamic : string -> bool) (s : State) (n : Z) :
  posted s = [] ->
  (halt s = false ->
   run is_dynamic [L_thread_safe_pause; L_posted] s = Some (pause s) /\
   run is_dynamic [L_thread_safe_resume; L_posted] s = Some (resume s) /\
   run is_dynamic [L_thread_safe_reconnect n; L_posted] s =
     Some (reconnect n s) /\
   run is_dynamic [L_thread_safe_stop; L_posted] s = Some (graceful_stop s)) /\
  (halt s = true ->
   thread_safe_pause s = s /\ thread_safe_resume s = s /\
   thread_safe_reconnect n s = s /\ thread_safe_stop s = s).
Proof.
  intros Hq. split.
  - intros Hh.
    assert (E : forall p, set_posted [] (post p s) = s).
    { intros p. destruct s. simpl in *. subst. reflexivity. }
    assert (P : forall p, posted (post p s) = [p]).
    { intros p. unfold post. simpl. rewrite Hq. reflexivity. }
    unfold run, step, thread_safe_pause, thread_safe_resume,
      thread_safe_reconnect, thread_safe_stop.
    rewrite Hh. simpl negb. cbv iota.
    rewrite !P, !E. repeat split; reflexivity.
  - intros Hh. unfold thread_safe_pause, thread_safe_resume,
      thread_safe_reconnect, thread_safe_stop. rewrite Hh. auto.
Qed.

(** X12.  The connection timeout spans attempts.  [new_client] leaves a
    pending connection timer as it is; when none is pending it arms one
    for [conn_timeout] seconds from now if [conn_timeout] is positive and
    none otherwise.  [client_proto_connected] aborts the timer's waits and
    clears the pending flag without touching anything else the
    collaborators see, so the next attempt arms a fresh timer. *)
Theorem conn_timer_spans_attempts (s : State) :
  (conn_timer_pending s = true ->
   conn_timer (new_client s) = conn_timer s /\
   conn_timer_pending (new_client s) = true) /\
  (conn_timer_pending s = false -> 0 < conn_timeout s ->
   conn_timer (new_client s) =
     timer_async_wait (uint_incr (generation s))
       (timer_expires_at (now s + conn_timeout s) (conn_timer s)) /\
   conn_timer_pending (new_client s) = true) /\
  (conn_timer_pending s = false -> conn_timeout s <= 0 ->
   conn_timer (new_client s) = conn_timer s /\
   conn_timer_pending (new_client s) = false) /\
  (live (conn_timer (client_proto_connected s)) = 0%nat /\
   conn_timer_pending (client_proto_connected s) = false /\
   trace (client_proto_connected s) = trace s /\
   generation (client_proto_connected s) = generation s /\
   (0 < conn_timeout s ->
    live (conn_timer (new_client (client_proto_connected s))) = 1%nat /\
    expiry (conn_timer (new_client (client_proto_connected s))) =
      now s + conn_timeout s)).
Proof.
  assert (N : forall s0,
    conn_timer (new_client s0) =
      (if negb (conn_timer_pending s0) && (0 <? conn_timeout s0)
       then timer_async_wait (uint_incr (generation s0))
              (timer_expires_at (now s0 + conn_timeout s0) (conn_timer s0))
       else conn_timer s0) /\
    conn_timer_pending (new_client s0) =
      (if negb (conn_timer_pending s0) && (0 <? conn_timeout s0)
       then true else conn_timer_pending s0)).
  { intros s0. unfold new_client, conn_timer_start, cancel, expires_at,
      async_wait, has_client, add_event, stats_error.
    destruct s0. simpl. repeat (break_match; simpl in *); try discriminate;
      split; reflexivity. }
  destruct (N s) as [N1 N2].
  split; [|split; [|split]].
  - intros Hp. rewrite N1, N2, Hp. simpl. auto.
  - intros Hp Hc. apply Z.ltb_lt in Hc. rewrite N1, N2, Hp, Hc. simpl. auto.
  - intros Hp Hc. apply Z.ltb_ge in Hc. rewrite N1, N2, Hp, Hc. simpl. auto.
  - split; [apply live_cancel|]. split; [reflexivity|].
    split; [reflexivity|]. split; [reflexivity|].
    intros Hc. apply Z.ltb_lt in Hc.
    destruct (N (client_proto_connected s)) as [M1 _].
    rewrite M1. simpl. rewrite Hc. simpl.
    split; [|reflexivity].
    rewrite live_async_wait, live_expires_at. reflexivity.
Qed.

(** ** [RegKeyEnumerator] *)

Lemma enum_loop_spec (reg : Win.Registry) (k : Win.HKEY) (r : nat) :
  forall i v calls,
    i + Z.of_nat r <= Win.INT_MAX ->
    Win.enum_loop reg k r i v calls =
      Some (v ++ Win.enumerable reg k (Win.indices i r),
            calls ++ map (Win.Enum k) (Win.indices i r)).
Proof.
  induction r as [|r IH]; intros i v calls Hb.
  - simpl. rewrite !app_nil_r. reflexivity.
  - cbn [Win.enum_loop Win.indices]. unfold Win.enumerable. cbn [flat_map map].
    fold (Win.enumerable reg k (Win.indices (i + 1) r)).
    destruct (Win.RegEnumKeyExA reg k i Win.MAX_KEY_LENGTH) as [status subkey].
    assert (Hi : (i =? Win.INT_MAX) = false) by (apply Z.eqb_neq; lia).
    rewrite Hi. rewrite IH by lia.
    destruct (status =? Win.ERROR_SUCCESS); simpl;
      rewrite <- ?app_assoc; reflexivity.
Qed.

Lemma enum_loop_calls (reg : Win.Registry) (k : Win.HKEY) (r : nat) :
  forall i v calls v' calls',
    Win.enum_loop reg k r i v calls = Some (v', calls') ->
    calls' = calls ++ map (Win.Enum k) (Win.indices i r).
Proof.
  induction r as [|r IH]; intros i v calls v' calls' H.
  - simpl in H. injection H as <- <-. simpl. rewrite app_nil_r. reflexivity.
  - cbn [Win.enum_loop] in H.
    destruct (Win.RegEnumKeyExA reg k i Win.MAX_KEY_LENGTH) as [status subkey].
    destruct (i =? Win.INT_MAX); [discriminate|].
    apply IH in H. rewrite H. simpl. rewrite <- app_assoc. reflexivity.
Qed.

Lemma no_close_in_enums (k : Win.HKEY) (l : list Z) :
  filter Win.is_close (map (Win.Enum k) l) = [].
Proof. induction l as [|i l IH]; simpl; auto. Qed.

Lemma enumerable_length (reg : Win.Registry) (k : Win.HKEY) (l : list Z) :
  (List.length (Win.enumerable reg k l) <= List.length l)%nat.
Proof.
  induction l as [|i l IH]; simpl; [lia|].
  rewrite length_app.
  destruct (Win.RegEnumKeyExA reg k i Win.MAX_KEY_LENGTH) as [status subkey].
  destruct (status =? Win.ERROR_SUCCESS); simpl; lia.
Qed.

Lemma indices_length (i : Z) (n : nat) : List.length (Win.indices i n) = n.
Proof. revert i. induction n as [|n IH]; intros i; simpl; auto. Qed.

(** X13.  If the key cannot be opened, or its subkey count cannot be
    queried, the enumerator is empty and no subkey is enumerated. *)
Theorem RegKeyEnumerator_failure
  (reg : Win.Registry) (hkey : Win.HKEY) (path : string) :
  fst (Win.RegOpenKeyExA reg hkey path) <> Win.ERROR_SUCCESS \/
  fst (Win.RegQueryInfoKeyA reg (snd (Win.RegOpenKeyExA reg hkey path)))
    <> Win.ERROR_SUCCESS ->
  exists calls,
    Win.RegKeyEnumerator reg hkey path = Some ([], calls) /\
    filter Win.is_enum calls = [].
Proof.
  intros H. unfold Win.RegKeyEnumerator.
  destruct (Win.RegOpenKeyExA reg hkey path) as [st k]. simpl in H.
  destruct (st =? Win.ERROR_SUCCESS) eqn:E1; simpl.
  - apply Z.eqb_eq in E1. destruct H as [H|H]; [congruence|].
    destruct (Win.RegQueryInfoKeyA reg k) as [st2 n]. simpl in H.
    apply Z.eqb_neq in H. rewrite H. simpl.
    eexists. split; [reflexivity|].
    unfold Win.RegKey_destroy. destruct (Win.defined _); reflexivity.
  - eexists. split; [reflexivity|].
    unfold Win.RegKey_destroy. destruct (Win.defined _); reflexivity.
Qed.

(** X14.  If the key opens and reports [n] subkeys ([n] within the range
    of [int]), the enumerator holds the names of the indices 0 .. n-1
    whose enumeration succeeds, in index order: an index that fails is
    skipped and does not end the loop, every index is asked once, and the
    enumerator has at most [n] entries. *)
Theorem RegKeyEnumerator_subkeys
  (reg : Win.Registry) (hkey k : Win.HKEY) (path : string) (n : Z) :
  Win.RegOpenKeyExA reg hkey path = (Win.ERROR_SUCCESS, k) ->
  Win.RegQueryInfoKeyA reg k = (Win.ERROR_SUCCESS, n) ->
  n <= Win.INT_MAX ->
  exists calls,
    Win.RegKeyEnumerator reg hkey path =
      Some (Win.enumerable reg k (Win.indices 0 (Z.to_nat n)), calls) /\
    filter Win.is_enum calls =
      map (Win.Enum k) (Win.indices 0 (Z.to_nat n)) /\
    (List.length (Win.enumerable reg k (Win.indices 0 (Z.to_nat n)))
     <= Z.to_nat n)%nat.
Proof.
  intros Ho Hq Hn. unfold Win.RegKeyEnumerator. rewrite Ho. simpl.
  rewrite Hq. simpl.
  assert (Hm : 0 <= Win.INT_MAX) by (unfold Win.INT_MAX; lia).
  rewrite enum_loop_spec by lia.
  eexists. split; [reflexivity|]. split.
  - rewrite !filter_app. simpl.
    assert (F : forall l, filter Win.is_enum (map (Win.Enum k) l) =
                          map (Win.Enum k) l).
    { induction l as [|i l IH]; simpl; [reflexivity|]. rewrite IH.
      reflexivity. }
    rewrite F. unfold Win.RegKey_destroy.
    destruct (Win.defined _); simpl; rewrite app_nil_r; reflexivity.
  - pose proof (enumerable_length reg k (Win.indices 0 (Z.to_nat n))) as L.
    rewrite indices_length in L. exact L.
Qed.

(** X15.  Whenever the constructor returns, the handle that
    [RegOpenKeyExA] left in the [RegKey] has been closed exactly once, as
    the last call, if it is not null; if it is null, nothing is closed. *)
Theorem RegKeyEnumerator_closes_key
  (reg : Win.Registry) (hkey : Win.HKEY) (path : string)
  (v : list string) (calls : list Win.Call) :
  Win.RegKeyEnumerator reg hkey path = Some (v, calls) ->
  let k := snd (Win.RegOpenKeyExA reg hkey path) in
  (k <> Win.nullptr ->
   exists before, calls = before ++ [Win.Close k] /\
                  filter Win.is_close before = []) /\
  (k = Win.nullptr -> filter Win.is_close calls = []).
Proof.
  unfold Win.RegKeyEnumerator.
  destruct (Win.RegOpenKeyExA reg hkey path) as [st k]. simpl.
  assert (D : forall pre,
    filter Win.is_close pre = [] ->
    (k <> Win.nullptr ->
     exists before,
       pre ++ Win.RegKey_destroy {| Win.key := k |} =
         before ++ [Win.Close k] /\
       filter Win.is_close before = []) /\
    (k = Win.nullptr ->
     filter Win.is_close (pre ++ Win.RegKey_destroy {| Win.key := k |}) = [])).
  { intros pre Hpre. unfold Win.RegKey_destroy, Win.defined. simpl. split.
    - intros Hk. apply Z.eqb_neq in Hk. rewrite Hk. simpl.
      exists pre. auto.
    - intros Hk. apply Z.eqb_eq in Hk. rewrite Hk. simpl.
      rewrite app_nil_r. exact Hpre. }
  destruct (st =? Win.ERROR_SUCCESS); simpl.
  - destruct (Win.RegQueryInfoKeyA reg k) as [st2 n].
    destruct (st2 =? Win.ERROR_SUCCESS); simpl.
    + destruct (Win.enum_loop reg k (Z.to_nat n) 0 []
                  [Win.Open hkey path; Win.Query k])
        as [[v0 calls0]|] eqn:El; [|discriminate].
      intros H. injection H as <- <-.
      apply enum_loop_calls in El. rewrite El.
      apply D. rewrite filter_app. simpl. apply no_close_in_enums.
    + intros H. injection H as <- <-. apply (D [_; _]). reflexivity.
  - intros H. injection H as <- <-. apply (D [_]). reflexivity.
Qed.

(** ** The theorems above on concrete runs *)

Lemma stop_takes_effect_once_witness :
  run always_dynamic busy_run (init polling_options 0) = Some busy_end /\
  halt busy_end = true /\
  count (is_event is_disconnected) (trace busy_end) = 1%nat.
Proof.
  assert (H : run always_dynamic busy_run (init polling_options 0) =
              Some busy_end) by (vm_compute; reflexivity).
  split; [exact H|]. split; [reflexivity|].
  destruct (stop_takes_effect_once always_dynamic polling_options 0
              busy_run busy_end H) as [A _].
  rewrite A. reflexivity.
Defined.

Lemma generation_counts_sessions_witness :
  run always_dynamic busy_run (init polling_options 0) = Some busy_end /\
  sessions busy_end = 3%nat /\ generation busy_end = 3 /\
  count (is_event is_reconnecting) (trace busy_end) = 2%nat.
Proof.
  assert (H : run always_dynamic busy_run (init polling_options 0) =
              Some busy_end) by (vm_compute; reflexivity).
  assert (S3 : sessions busy_end = 3%nat) by (vm_compute; reflexivity).
  split; [exact H|]. split; [exact S3|].
  destruct (generation_counts_sessions always_dynamic polling_options 0
              busy_run busy_end H) as (A & _ & _ & D).
  split.
  - rewrite A, S3. reflexivity.
  - destruct D as [D _]; [rewrite S3; reflexivity|].
    rewrite D, S3. reflexivity.
Defined.

Lemma live_waits_are_current_witness :
  run always_dynamic polling_run (init polling_options 0) = Some polling_end /\
  generation polling_end = 2 /\
  nth_error (waits (restart_wait_timer polling_end)) 0 =
    Some {| w_gen := 2; w_expiry := 11; w_aborted := false |} /\
  (live (server_poll_timer polling_end) <= 1)%nat.
Proof.
  assert (H : run always_dynamic polling_run (init polling_options 0) =
              Some polling_end) by (vm_compute; reflexivity).
  split; [exact H|]. split; [reflexivity|]. split; [reflexivity|].
  destruct (live_waits_are_current always_dynamic polling_options 0
              polling_run polling_end H) as (_ & B & _).
  exact B.
Defined.

Lemma conn_timer_pending_tracks_wait_witness :
  run always_dynamic polling_run (init polling_options 0) = Some polling_end /\
  conn_timer_pending polling_end = true /\
  live (conn_timer polling_end) = 1%nat.
Proof.
  assert (H : run always_dynamic polling_run (init polling_options 0) =
              Some polling_end) by (vm_compute; reflexivity).
  split; [exact H|]. split; [reflexivity|].
  destruct (conn_timer_pending_tracks_wait always_dynamic polling_options 0
              polling_run polling_end H) as [A _].
  rewrite A. reflexivity.
Defined.

Lemma nonpositive_conn_timeout_disables_witness :
  opt_conn_timeout untimed_options <= 0 /\
  run always_dynamic untimed_run (init untimed_options 0) = Some untimed_end /\
  sessions untimed_end = 1%nat /\
  waits (conn_timer untimed_end) = [] /\
  timeout_events (trace untimed_end) = 0%nat.
Proof.
  assert (Ho : opt_conn_timeout untimed_options <= 0) by (simpl; lia).
  assert (H : run always_dynamic untimed_run (init untimed_options 0) =
              Some untimed_end) by (vm_compute; reflexivity).
  split; [exact Ho|]. split; [exact H|]. split; [vm_compute; reflexivity|].
  destruct (nonpositive_conn_timeout_disables always_dynamic untimed_options 0
              untimed_run untimed_end Ho H) as (A & B & _).
  split; [exact A|exact B].
Defined.

Lemma work_guard_only_while_paused_witness :
  run always_dynamic untimed_run (init untimed_options 0) = Some untimed_end /\
  asio_work untimed_end = true /\
  paused untimed_end = true /\ halt untimed_end = false.
Proof.
  assert (H : run always_dynamic untimed_run (init untimed_options 0) =
              Some untimed_end) by (vm_compute; reflexivity).
  assert (W : asio_work untimed_end = true) by reflexivity.
  split; [exact H|]. split; [exact W|].
  exact (work_guard_only_while_paused always_dynamic untimed_options 0
           untimed_run untimed_end H W).
Defined.

Lemma no_fault_restart_witness :
  halt polling_first = false /\
  client polling_first = Some fresh_session /\
  run always_dynamic
    [L_client_proto_terminate; L_tick 1; L_timer RestartWait 0%nat success]
    polling_first = None /\
  exists s',
    run always_dynamic
      [L_client_proto_terminate; L_tick 2; L_timer RestartWait 0%nat success]
      polling_first = Some s' /\
    generation s' = 2 /\ sessions s' = 2%nat.
Proof.
  split; [reflexivity|]. split; [reflexivity|].
  assert (H0 : 0 <= 1) by lia.
  assert (H2 : 0 <= 2) by lia.
  split.
  - pose proof (no_fault_restart always_dynamic polling_first fresh_session 1
                  eq_refl eq_refl eq_refl eq_refl eq_refl H0) as H.
    cbv zeta in H. destruct H as [A _]. apply A. lia.
  - pose proof (no_fault_restart always_dynamic polling_first fresh_session 2
                  eq_refl eq_refl eq_refl eq_refl eq_refl H2) as H.
    cbv zeta in H. destruct H as [_ B].
    destruct B as (s' & E & _ & G & S & _); [lia|].
    exists s'. split; [exact E|]. split; [rewrite G|rewrite S]; reflexivity.
Defined.

Lemma reconnect_restarts_witness :
  halt polling_first = false /\
  expiry (restart_wait_timer (reconnect (-3) polling_first)) = 0 /\
  exists s',
    run always_dynamic
      [L_reconnect (-3); L_tick 0; L_timer RestartWait 0%nat success]
      polling_first = Some s' /\
    generation s' = 2 /\ sessions s' = 2%nat.
Proof.
  split; [reflexivity|].
  assert (H0 : 0 <= 0) by lia.
  pose proof (reconnect_restarts always_dynamic polling_first (-3) 0
                eq_refl H0) as H.
  cbv zeta in H. destruct H as (A & _ & _ & _ & B).
  split.
  - unfold restart_armed in A. rewrite A. reflexivity.
  - destruct B as (s' & E & _ & _ & G & S & _); [simpl; lia|].
    exists s'. split; [exact E|]. split; [rewrite G|rewrite S]; reflexivity.
Defined.

Lemma resolution_before_first_attempt_witness :
  work_available (client_options (init untimed_options 0)) = true /\
  client (start (init untimed_options 0)) = None /\
  exists s',
    run always_dynamic [L_start; L_stop; L_pre_resolve_done]
      (init untimed_options 0) = Some s' /\
    halt s' = true /\ sessions s' = 0%nat.
Proof.
  split; [reflexivity|].
  destruct (resolution_before_first_attempt always_dynamic
              (init untimed_options 0) eq_refl eq_refl eq_refl)
    as (_ & A & _ & _ & _ & B).
  split; [exact A|].
  destruct B as (s' & E & Hh & _ & S & _).
  exists s'. split; [exact E|]. split; [exact Hh|]. rewrite S. reflexivity.
Defined.

Lemma thread_safe_calls_are_posted_witness :
  posted polling_first = [] /\
  run always_dynamic [L_thread_safe_pause; L_posted] polling_first =
    Some (pause polling_first) /\
  run always_dynamic [L_thread_safe_stop; L_posted] polling_first =
    Some (graceful_stop polling_first).
Proof.
  split; [reflexivity|].
  destruct (thread_safe_calls_are_posted always_dynamic polling_first 0
              eq_refl) as [A _].
  destruct (A eq_refl) as (P & _ & _ & S).
  split; [exact P|exact S].
Defined.

Lemma RegKeyEnumerator_failure_witness :
  fst (Win.RegOpenKeyExA Win.three_keys 1 "SOFTWARE\Missing") <>
    Win.ERROR_SUCCESS /\
  exists calls,
    Win.RegKeyEnumerator Win.three_keys 1 "SOFTWARE\Missing" =
      Some ([], calls).
Proof.
  assert (H : fst (Win.RegOpenKeyExA Win.three_keys 1 "SOFTWARE\Missing") <>
              Win.ERROR_SUCCESS) by (vm_compute; discriminate).
  split; [exact H|].
  destruct (RegKeyEnumerator_failure Win.three_keys 1 "SOFTWARE\Missing"
              (or_introl H)) as (calls & E & _).
  exists calls. exact E.
Defined.

Lemma RegKeyEnumerator_subkeys_witness :
  Win.RegOpenKeyExA Win.three_keys 1 "SOFTWARE\OpenVPN" =
    (Win.ERROR_SUCCESS, 7) /\
  exists calls,
    Win.RegKeyEnumerator Win.three_keys 1 "SOFTWARE\OpenVPN" =
      Some (["alpha"; "gamma"]%string, calls) /\
    filter Win.is_enum calls = [Win.Enum 7 0; Win.Enum 7 1; Win.Enum 7 2].
Proof.
  split; [reflexivity|].
  assert (Hn : 3 <= Win.INT_MAX) by (unfold Win.INT_MAX; lia).
  destruct (RegKeyEnumerator_subkeys Win.three_keys 1 7 "SOFTWARE\OpenVPN" 3
              eq_refl eq_refl Hn) as (calls & E & F & _).
  exists calls. split; [exact E|exact F].
Defined.

Lemma RegKeyEnumerator_closes_key_witness :
  Win.RegKeyEnumerator Win.three_keys 1 "SOFTWARE\OpenVPN" =
    Some (["alpha"; "gamma"]%string,
          [Win.Open 1 "SOFTWARE\OpenVPN"; Win.Query 7; Win.Enum 7 0;
           Win.Enum 7 1; Win.Enum 7 2; Win.Close 7]) /\
  exists before,
    [Win.Open 1 "SOFTWARE\OpenVPN"; Win.Query 7; Win.Enum 7 0;
     Win.Enum 7 1; Win.Enum 7 2; Win.Close 7] = before ++ [Win.Close 7] /\
    filter Win.is_close before = [].
Proof.
  assert (H : Win.RegKeyEnumerator Win.three_keys 1 "SOFTWARE\OpenVPN" =
    Some (["alpha"; "gamma"]%string,
          [Win.Open 1 "SOFTWARE\OpenVPN"; Win.Query 7; Win.Enum 7 0;
           Win.Enum 7 1; Win.Enum 7 2; Win.Close 7]))
    by (vm_compute; reflexivity).
  split; [exact H|].
  pose proof (RegKeyEnumerator_closes_key Win.three_keys 1 "SOFTWARE\OpenVPN"
                _ _ H) as K.
  cbv zeta in K. destruct K as [A _].
  apply A. vm_compute. discriminate.
Defined.

Lemma start_once_witness :
  work_available (client_options (init polling_options 0)) = false /\
  start (start (init polling_options 0)) = start (init polling_options 0) /\
  start polling_first = polling_first /\
  trace (start (start (init untimed_options 0))) =
    [EvAdd ClientEvent.Resolve; PreResStart;
     EvAdd ClientEvent.Resolve; PreResStart].
Proof.
  split; [reflexivity|].
  destruct (start_once (init polling_options 0)) as (_ & B & _).
  destruct (start_once polling_first) as (A & _).
  destruct (start_once (init untimed_options 0)) as (_ & _ & C).
  split; [apply B; reflexivity|].
  split; [apply A; left; reflexivity|].
  apply (C eq_refl eq_refl eq_refl).
Defined.

Lemma conn_timer_spans_attempts_witness :
  conn_timer_pending polling_first = true /\
  conn_timer (new_client polling_first) = conn_timer polling_first /\
  expiry (conn_timer (new_client (client_proto_connected polling_first))) = 30.
Proof.
  split; [reflexivity|].
  destruct (conn_timer_spans_attempts polling_first) as (A & _ & _ & D).
  split; [apply A; reflexivity|].
  destruct D as (_ & _ & _ & _ & D).
  assert (H : 0 < conn_timeout polling_first) by (vm_compute; reflexivity).
  destruct (D H) as [_ E]. rewrite E. reflexivity.
Defined.
